(** * bivt-backend: the expenses access class and the circle routes

    A shallow embedding of [src/models/plugin/expenses.js] (class
    [Expenses]) and of the two handlers of the circle router
    ([POST /circle/create], [GET /circle/byUser]), with the properties of
    the authorization-and-consistency layer proved over it.

    Layout:
    - [Js]: the fragment of JavaScript the sources rely on (promises,
      [parseInt], property reads on a query result);
    - [Db]: the relational store and the meaning of the seven SQL
      statements that appear verbatim in [expenses.js];
    - [Expenses]: the methods of the class, callback by callback;
    - [CircleRoutes]: the two route handlers;
    - the theorems. *)

From Stdlib Require Import Ascii Decimal DecimalString DecimalPos DecimalZ.
From stdpp Require Import base numbers list strings sorting.

#[local] Open Scope Z_scope.

(* ===================================================================== *)
(** ** The JavaScript fragment *)
(* ===================================================================== *)

Module Js.

(** [new Error(msg)]: only [error.message] is ever read. *)
Record Error := mkError { message : string }.

(** A settled promise.  A callback given to [.then] either returns a
    value (the promise resolves) or throws (it rejects), so callbacks are
    functions into [Promise]. *)
Inductive Promise (A : Type) : Type :=
| Resolved (a : A)
| Rejected (e : Error).
Arguments Resolved {A} a.
Arguments Rejected {A} e.

(** Asynchronous code over a store [S]: running it settles a promise and
    leaves a store behind.  This is the state-and-error monad in which the
    promise chains of the sources are written. *)
Definition Async (S A : Type) : Type := S -> Promise A * S.

(** [return a] inside a callback. *)
Definition resolve {S A} (a : A) : Async S A := fun s => (Resolved a, s).

(** [throw e] inside a callback. *)
Definition throw {S A} (e : Error) : Async S A := fun s => (Rejected e, s).

(** [p.then(f)] *)
Definition then_ {S A B} (p : Async S A) (f : A -> Async S B) : Async S B :=
  fun s =>
    match p s with
    | (Resolved a, s') => f a s'
    | (Rejected e, s') => (Rejected e, s')
    end.

(** [p.catch(h)] *)
Definition catch_ {S A} (p : Async S A) (h : Error -> Async S A) : Async S A :=
  fun s =>
    match p s with
    | (Resolved a, s') => (Resolved a, s')
    | (Rejected e, s') => h e s'
    end.

(** The value of a property read such as [result.insertId] or
    [bills.length]: a number, or [undefined] when the object has no such
    property.  Numbers are the integer-valued ones (row counts and
    AUTO_INCREMENT identifiers), kept as [Z]. *)
Inductive Value : Type :=
| VUndefined
| VNumber (z : Z).

(** The result of [parseInt]: an integer or [NaN]. *)
Inductive Number : Type :=
| Num (z : Z)
| NaN.

(** [ToString] on the values above.  Number::toString prints an integer
    below 1e21 in decimal digits, with a leading [-] when negative; the
    identifiers and row counts MySQL reports are below 2^64, so this is
    the only case that arises. *)
Definition ToString (v : Value) : string :=
  match v with
  | VUndefined => "undefined"
  | VNumber z => NilZero.string_of_int (Z.to_int z)
  end.

(** StrWhiteSpaceChar, ASCII part: TAB, LF, VT, FF, CR, SP. *)
Definition is_white_space (c : ascii) : bool :=
  let n := N_of_ascii c in
  ((9 <=? n) && (n <=? 13) || (n =? 32))%N.

Fixpoint trim_start (s : string) : string :=
  match s with
  | String c s' => if is_white_space c then trim_start s' else s
  | EmptyString => s
  end.

(** The value of a character read as a digit in some radix up to 36. *)
Definition digit_value (c : ascii) : option Z :=
  let n := Z.of_N (N_of_ascii c) in
  if (48 <=? n) && (n <=? 57) then Some (n - 48)
  else if (97 <=? n) && (n <=? 122) then Some (n - 97 + 10)
  else if (65 <=? n) && (n <=? 90) then Some (n - 65 + 10)
  else None.

(** Steps 11-14 of parseInt: the longest prefix of radix-R digits, read
    as an integer; [None] when that prefix is empty. *)
Fixpoint parse_digits (R : Z) (acc : option Z) (s : string) : option Z :=
  match s with
  | String c s' =>
      match digit_value c with
      | Some d =>
          if d <? R then parse_digits R (Some (R * default 0 acc + d)) s'
          else acc
      | None => acc
      end
  | EmptyString => acc
  end.

(** parseInt(string) with no radix argument: leading white space is
    dropped, then an optional sign, then an optional [0x]/[0X] prefix
    that switches to radix 16, then the digits. *)
Definition parseInt_string (inputString : string) : Number :=
  let trimmed := trim_start inputString in
  let '(sign, unsigned) :=
    match trimmed with
    | String "-" rest => (-1, rest)
    | String "+" rest => (1, rest)
    | _ => (1, trimmed)
    end in
  let '(R, digits) :=
    match unsigned with
    | String "0" (String "x" rest) => (16, rest)
    | String "0" (String "X" rest) => (16, rest)
    | _ => (10, unsigned)
    end in
  match parse_digits R None digits with
  | None => NaN
  | Some mathInt => Num (sign * mathInt)
  end.

(** [parseInt(v)]: the argument is first converted to a string. *)
Definition parseInt (v : Value) : Number := parseInt_string (ToString v).

(** [v >= n] and [v > n] against a number literal: comparisons with
    [undefined] are false. *)
Definition ge (v : Value) (n : Z) : bool :=
  match v with
  | VNumber z => n <=? z
  | VUndefined => false
  end.

Definition gt (v : Value) (n : Z) : bool :=
  match v with
  | VNumber z => n <? z
  | VUndefined => false
  end.

(** [{ ...item }]: a fresh object with the own properties of [item]. *)
Definition spread {R : Type} (item : R) : R := item.

End Js.


Notation "p '.then' f" := (Js.then_ p f)
  (at level 61, left associativity, only parsing).
Notation "p '.catch' h" := (Js.catch_ p h)
  (at level 61, left associativity, only parsing).

(* ===================================================================== *)
(** ** The relational store *)
(* ===================================================================== *)

(** Rows of the tables and of the result sets, one record per shape, with
    the column names of the SQL text.  Identifiers, amounts and dates are
    integers (a date is its position on the time line, so that the order
    of [ORDER BY] is the order of [Z]). *)

Module Category.
(** [tb_plugin_expenses_categories]; also the shape of the rows of
    [SELECT PE.id, PE.categoryName]. *)
Record t := mk { id : Z; categoryName : string }.
End Category.

Module Member.
(** [tb_circle_member]: [userId] and [circleId] are the columns the SQL of
    [expenses.js] reads; [isOwner] and [joinedAt] are the ones the circle
    list of [GET /circle/byUser] shows. *)
Record t := mk { userId : Z; circleId : Z; isOwner : bool; joinedAt : option Z }.
End Member.

Module Circle.
(** [tb_circle] *)
Record t := mk { id : Z; name : string }.
End Circle.

Module Bill.
(** [tb_plugin_expenses] *)
Record t := mk {
  id : Z; circleId : Z; userId : Z;
  billName : string; billAmount : Z; billCategoryId : Z; billDate : Z }.
End Bill.

Module BillRow.
(** A row of the result set of [getBills]. *)
Record t := mk {
  id : Z; billName : string; billAmount : Z; billCategoryId : Z;
  categoryNAme : string; billDate : Z }.
End BillRow.

Module Budget.
(** [tb_plugin_expenses_budget] *)
Record t := mk {
  id : Z; circleId : Z; userId : Z;
  budgetName : string; budgetAmount : Z;
  budgetStartDate : Z; budgetEndDate : Z }.
End Budget.

Module BudgetRow.
(** A row of the result set of [getBudgets]. *)
Record t := mk {
  id : Z; budgetName : string; budgetAmount : Z;
  budgetStartDate : Z; budgetEndDate : Z }.
End BudgetRow.

Module Db.

(** The tables, each with its rows in insertion order, and the
    AUTO_INCREMENT counters of the two tables the class inserts into. *)
Record Store := mkStore {
  tb_plugin_expenses_categories : list Category.t;
  tb_circle : list Circle.t;
  tb_circle_member : list Member.t;
  tb_plugin_expenses : list Bill.t;
  tb_plugin_expenses_auto_increment : Z;
  tb_plugin_expenses_budget : list Budget.t;
  tb_plugin_expenses_budget_auto_increment : Z }.

(** The result descriptor of a statement that returns no rows. *)
Record OkPacket := mkOk { insertId : Z; affectedRows : Z }.

(** What a query resolves with: an array of records, a result
    descriptor, or nothing ([null] / [undefined]). *)
Inductive QueryResult (R : Type) : Type :=
| QNull
| QRows (rows : list R)
| QOk (ok : OkPacket).
Arguments QNull {R}.
Arguments QRows {R} rows.
Arguments QOk {R} ok.

(** [result != null] *)
Definition not_null {R} (result : QueryResult R) : bool :=
  match result with
  | QNull => false
  | _ => true
  end.

(** [result.length] *)
Definition length_of {R} (result : QueryResult R) : Js.Value :=
  match result with
  | QRows rows => Js.VNumber (Z.of_nat (length rows))
  | _ => Js.VUndefined
  end.

(** [result.insertId] *)
Definition insertId_of {R} (result : QueryResult R) : Js.Value :=
  match result with
  | QOk ok => Js.VNumber (insertId ok)
  | _ => Js.VUndefined
  end.

(** [result.affectedRows] *)
Definition affectedRows_of {R} (result : QueryResult R) : Js.Value :=
  match result with
  | QOk ok => Js.VNumber (affectedRows ok)
  | _ => Js.VUndefined
  end.

(** [ORDER BY key DESC]: [x] may come before [y] when the key of [x] is
    not below the key of [y]. *)
Definition desc {A} (key : A -> Z) : relation A :=
  fun x y => key y <= key x.

#[global] Instance desc_dec {A} (key : A -> Z) (x y : A)
  : Decision (desc key x y) := decide (key y <= key x).

Definition order_by_desc {A} (key : A -> Z) (l : list A) : list A :=
  merge_sort (desc key) l.

(** *** The statements of [expenses.js] *)

(** [SELECT PE.id, PE.categoryName FROM tb_plugin_expenses_categories AS PE] *)
Definition select_categories (db : Store) : list Category.t :=
  (fun PE => Category.mk (Category.id PE) (Category.categoryName PE))
    <$> tb_plugin_expenses_categories db.

(** [FROM tb_plugin_expenses AS PE
     INNER JOIN tb_circle_member AS CM on PE.circleId = CM.circleId
     INNER JOIN tb_plugin_expenses_categories AS EC on PE.billCategoryId = EC.id] *)
Definition bills_joined (db : Store) : list (Bill.t * Member.t * Category.t) :=
  PE ← tb_plugin_expenses db;
  CM ← filter (fun CM => Bill.circleId PE = Member.circleId CM)
              (tb_circle_member db);
  EC ← filter (fun EC => Bill.billCategoryId PE = Category.id EC)
              (tb_plugin_expenses_categories db);
  [(PE, CM, EC)].

(** [SELECT PE.id, PE.billName, PE.billAmount, PE.billCategoryId,
            EC.categoryNAme, PE.billDate
     FROM ... WHERE CM.userId = ? AND CM.circleId = ?
     ORDER BY PE.billDate DESC], with [[userId, circleId]] *)
Definition select_bills (userId circleId : Z) (db : Store) : list BillRow.t :=
  (fun '(PE, CM, EC) =>
     BillRow.mk (Bill.id PE) (Bill.billName PE) (Bill.billAmount PE)
                (Bill.billCategoryId PE) (Category.categoryName EC)
                (Bill.billDate PE))
    <$> order_by_desc (fun '(PE, CM, EC) => Bill.billDate PE)
          (filter (fun '(PE, CM, EC) =>
                     Member.userId CM = userId /\ Member.circleId CM = circleId)
                  (bills_joined db)).

(** Modelled from the spec: the foreign key of a bill to its category.
    The schema is not among the sources; the store enforces foreign-key
    relationships, and the category of a bill refers to a row of the
    category table.  [fk_bill_category db k] holds when a category row
    has the id [k]. *)
Definition fk_bill_category (db : Store) (billCategoryId : Z) : Prop :=
  Exists (fun EC => Category.id EC = billCategoryId)
         (tb_plugin_expenses_categories db).

#[global] Instance fk_bill_category_dec db billCategoryId
  : Decision (fk_bill_category db billCategoryId).
Proof. unfold fk_bill_category. apply _. Defined.

(** Modelled from the spec: the fault the store raises when an insert
    breaks a foreign key ([ER_NO_REFERENCED_ROW_2] is the code MySQL gives
    it). *)
Definition ER_NO_REFERENCED_ROW_2 : Js.Error :=
  Js.mkError "ER_NO_REFERENCED_ROW_2".

(** The store with one more row in [tb_plugin_expenses], the counter of
    the table moved on. *)
Definition store_bill (PE : Bill.t) (db : Store) : Store :=
  mkStore (tb_plugin_expenses_categories db) (tb_circle db) (tb_circle_member db)
    (tb_plugin_expenses db ++ [PE])
    (tb_plugin_expenses_auto_increment db + 1)
    (tb_plugin_expenses_budget db) (tb_plugin_expenses_budget_auto_increment db).

(** [INSERT INTO tb_plugin_expenses (circleId, userId, billName,
     billAmount, billCategoryId, billDate) VALUES (?, ?, ?, ?, ?, ?)]:
    the row is stored under the next id of the table, unless its category
    is the id of no category row, in which case the store faults and
    stores nothing. *)
Definition insert_bill (circleId userId : Z) (billName : string)
    (billAmount billCategoryId billDate : Z) (db : Store)
    : Js.Error + OkPacket * Store :=
  let id := tb_plugin_expenses_auto_increment db in
  if decide (fk_bill_category db billCategoryId) then
    inr (mkOk id 1,
         store_bill (Bill.mk id circleId userId billName billAmount
                             billCategoryId billDate) db)
  else inl ER_NO_REFERENCED_ROW_2.

(** [DELETE from tb_plugin_expenses WHERE id = ? AND circleId=?], with
    [[billId, circleId]] *)
Definition delete_bill (billId circleId : Z) (db : Store) : OkPacket * Store :=
  let hit PE := Bill.id PE = billId /\ Bill.circleId PE = circleId in
  (mkOk 0 (Z.of_nat (length (filter hit (tb_plugin_expenses db)))),
   mkStore (tb_plugin_expenses_categories db) (tb_circle db) (tb_circle_member db)
     (filter (fun PE => ~ hit PE) (tb_plugin_expenses db))
     (tb_plugin_expenses_auto_increment db)
     (tb_plugin_expenses_budget db) (tb_plugin_expenses_budget_auto_increment db)).

(** [INSERT INTO tb_plugin_expenses_budget (circleId, userId, budgetName,
     budgetAmount, budgetStartDate, budgetEndDate) VALUES (?, ?, ?, ?, ?, ?)] *)
Definition insert_budget (circleId userId : Z) (budgetName : string)
    (budgetAmount budgetStartDate budgetEndDate : Z) (db : Store)
    : OkPacket * Store :=
  let id := tb_plugin_expenses_budget_auto_increment db in
  (mkOk id 1,
   mkStore (tb_plugin_expenses_categories db) (tb_circle db) (tb_circle_member db)
     (tb_plugin_expenses db) (tb_plugin_expenses_auto_increment db)
     (tb_plugin_expenses_budget db ++
        [Budget.mk id circleId userId budgetName budgetAmount
                   budgetStartDate budgetEndDate])
     (id + 1)).

(** [FROM tb_plugin_expenses_budget AS PEB
     INNER JOIN tb_circle_member AS CM on PEB.circleId = CM.circleId] *)
Definition budgets_joined (db : Store) : list (Budget.t * Member.t) :=
  PEB ← tb_plugin_expenses_budget db;
  CM ← filter (fun CM => Budget.circleId PEB = Member.circleId CM)
              (tb_circle_member db);
  [(PEB, CM)].

(** [SELECT PEB.id, PEB.budgetName, PEB.budgetAmount, PEB.budgetStartDate,
            PEB.budgetEndDate
     FROM ... WHERE CM.userId = ? AND CM.circleId = ?
     ORDER BY PEB.budgetStartDate DESC], with [[userId, circleId]] *)
Definition select_budgets (userId circleId : Z) (db : Store) : list BudgetRow.t :=
  (fun '(PEB, CM) =>
     BudgetRow.mk (Budget.id PEB) (Budget.budgetName PEB) (Budget.budgetAmount PEB)
                  (Budget.budgetStartDate PEB) (Budget.budgetEndDate PEB))
    <$> order_by_desc (fun '(PEB, CM) => Budget.budgetStartDate PEB)
          (filter (fun '(PEB, CM) =>
                     Member.userId CM = userId /\ Member.circleId CM = circleId)
                  (budgets_joined db)).

(** [DELETE from tb_plugin_expenses_budget WHERE id = ? AND circleId=?],
    with [[budgetId, circleId]] *)
Definition delete_budget (budgetId circleId : Z) (db : Store) : OkPacket * Store :=
  let hit PEB := Budget.id PEB = budgetId /\ Budget.circleId PEB = circleId in
  (mkOk 0 (Z.of_nat (length (filter hit (tb_plugin_expenses_budget db)))),
   mkStore (tb_plugin_expenses_categories db) (tb_circle db) (tb_circle_member db)
     (tb_plugin_expenses db) (tb_plugin_expenses_auto_increment db)
     (filter (fun PEB => ~ hit PEB) (tb_plugin_expenses_budget db))
     (tb_plugin_expenses_budget_auto_increment db)).

(** Modelled from the spec: the query primitive of [core/database], which
    is not among the sources.  It executes a parameterized statement and
    resolves with an array of records (for a SELECT) or with a result
    descriptor carrying [insertId] and [affectedRows] (for an INSERT or a
    DELETE). *)
Definition query_rows {R} (statement : Store -> list R)
  : Js.Async Store (QueryResult R) :=
  fun db => (Js.Resolved (QRows (statement db)), db).

(** Modelled from the spec: the same primitive on a statement that changes
    the store and reports a result descriptor. *)
Definition query_ok {R} (statement : Store -> OkPacket * Store)
  : Js.Async Store (QueryResult R) :=
  fun db => let '(ok, db') := statement db in (Js.Resolved (QOk ok), db').

(** Modelled from the spec: the same primitive on a statement the store
    may refuse; it surfaces a rejected outcome on the fault and leaves the
    store as it was. *)
Definition query_checked {R} (statement : Store -> Js.Error + OkPacket * Store)
  : Js.Async Store (QueryResult R) :=
  fun db =>
    match statement db with
    | inr (ok, db') => (Js.Resolved (QOk ok), db')
    | inl e => (Js.Rejected e, db)
    end.

End Db.

(* ===================================================================== *)
(** ** [class Expenses] *)
(* ===================================================================== *)

Module Expenses.
Import Js Db.

(** Each method is [query(sql, params).then(callback).catch(rethrow)];
    the callback is given first, then the method. *)

Definition getBillCategories_then {S} (categories : QueryResult Category.t)
  : Async S (option (list Category.t)) :=
  if not_null categories && gt (length_of categories) 0 then
    match categories with
    | QRows rows => resolve (Some (spread <$> rows))
    | _ => throw (mkError "categories.map is not a function")
    end
  else resolve None.

Definition getBillCategories : Async Store (option (list Category.t)) :=
  query_rows select_categories
    .then getBillCategories_then
    .catch (fun error => throw error).

Definition getBills_then {S} (bills : QueryResult BillRow.t)
  : Async S (option (list BillRow.t)) :=
  if not_null bills && ge (length_of bills) 0 then
    match bills with
    | QRows rows => resolve (Some (spread <$> rows))
    | _ => throw (mkError "bills.map is not a function")
    end
  else resolve None.

Definition getBills (userId circleId : Z)
  : Async Store (option (list BillRow.t)) :=
  query_rows (select_bills userId circleId)
    .then getBills_then
    .catch (fun error => throw error).

Definition addBill_then {S} (result : QueryResult Bill.t) : Async S Number :=
  if not_null result then resolve (parseInt (insertId_of result))
  else resolve (Num 0).

Definition addBill (circleId userId : Z) (billName : string)
    (billAmount billCategoryId billDate : Z) : Async Store Number :=
  query_checked
      (insert_bill circleId userId billName billAmount billCategoryId billDate)
    .then addBill_then
    .catch (fun error => throw error).

Definition removeBill_then {S} (result : QueryResult Bill.t) : Async S Number :=
  if not_null result then resolve (parseInt (affectedRows_of result))
  else resolve (Num 0).

Definition removeBill (userId billId circleId : Z) : Async Store Number :=
  query_ok (delete_bill billId circleId)
    .then removeBill_then
    .catch (fun error => throw error).

Definition addBudget_then {S} (result : QueryResult Budget.t) : Async S Number :=
  if not_null result then resolve (parseInt (insertId_of result))
  else resolve (Num 0).

Definition addBudget (circleId userId : Z) (budgetName : string)
    (budgetAmount budgetStartDate budgetEndDate : Z) : Async Store Number :=
  query_ok (insert_budget circleId userId budgetName budgetAmount
                          budgetStartDate budgetEndDate)
    .then addBudget_then
    .catch (fun error => throw error).

Definition getBudgets_then {S} (budgets : QueryResult BudgetRow.t)
  : Async S (option (list BudgetRow.t)) :=
  if not_null budgets && ge (length_of budgets) 0 then
    match budgets with
    | QRows rows => resolve (Some (spread <$> rows))
    | _ => throw (mkError "budgets.map is not a function")
    end
  else resolve None.

Definition getBudgets (userId circleId : Z)
  : Async Store (option (list BudgetRow.t)) :=
  query_rows (select_budgets userId circleId)
    .then getBudgets_then
    .catch (fun error => throw error).

Definition removeBudget_then {S} (result : QueryResult Budget.t) : Async S Number :=
  if not_null result then resolve (parseInt (affectedRows_of result))
  else resolve (Num 0).

Definition removeBudget (userId budgetId circleId : Z) : Async Store Number :=
  query_ok (delete_budget budgetId circleId)
    .then removeBudget_then
    .catch (fun error => throw error).

End Expenses.

(* ===================================================================== *)
(** ** The circle router *)
(* ===================================================================== *)

Module Transport.
(** Modelled from the spec: the uniform JSON response envelope built by
    [new Transport(id, errors, data)]; the class of
    [models/transport/transport] is not among the sources.  Its shape,
    [{ status: { id, errors }, data }], is the one of the apidoc examples
    of the router.  The [data] property can be deleted from an envelope. *)
Inductive Data (D : Type) : Type :=
| Deleted
| Null
| Payload (d : D).
Arguments Deleted {D}.
Arguments Null {D}.
Arguments Payload {D} d.

Record t (D : Type) := mk { id : Z; errors : option (list string); data : Data D }.
Arguments mk {D} id errors data.
Arguments id {D} t.
Arguments errors {D} t.
Arguments data {D} t.

(** [delete transport.data] *)
Definition delete_data {D} (transport : t D) : t D :=
  mk (id transport) (errors transport) Deleted.
End Transport.

Module CircleRoutes.
Import Js.

(** [req.user], as set by the JWT strategy. *)
Record AuthUser := mkUser { id : Z; email : string }.

(** The parts of the request the handlers read: [req.body.name] and
    [req.user]. *)
Record Request := mkRequest { name : string; user : AuthUser }.

(** What a handler answers with: [res.status(status).json(body)]
    ([res.json(body)] answers with status 200), or one of the two helpers
    of [core/express/errors], which are not among the sources and are
    kept as they are called. *)
Inductive Response (D : Type) : Type :=
| json (status : Z) (body : Transport.t D)
| formatError500Json (error : Error)
| formatError404Json.
Arguments json {D} status body.
Arguments formatError500Json {D} error.
Arguments formatError404Json {D}.

(** [{ circleId }] and [{ circles: result }] *)
Record CreateData := mkCreateData { circleId : Z }.
Record ByUserData (C : Type) := mkByUserData { circles : list C }.
Arguments mkByUserData {C} circles.
Arguments circles {C} b.

Definition limit_message : string := "You reached the free account limit.".

Section Handlers.
(** The methods of [CircleService] ([services/circleService], not among
    the sources) are parameters of the handlers; [S] is whatever state
    they run over and [C] the type of the circles they list. *)
Context {S C : Type}.
Variable getNumberCirclesByOwner : Z -> Async S Z.
Variable addNewCircle : Z -> string -> string -> Async S Z.
Variable GetCircleByUser : Z -> Async S (option (list C)).

(** The first callback of [POST /create]:
    [(result) => { if (result < 2) return result; else throw new Error(...) }] *)
Definition quota_gate (result : Z) : Async S Z :=
  if result <? 2 then resolve result
  else throw (mkError limit_message).

(** The [.catch] callback of [POST /create]. *)
Definition create_catch (error : Error) : Async S (Response CreateData) :=
  if String.eqb (message error) limit_message then
    let transport := Transport.mk 422 (Some [message error]) Transport.Null in
    let transport := Transport.delete_data transport in
    resolve (json 422 transport)
  else resolve (formatError500Json error).

(** The handler of [router.post('/create', ...)], after authentication
    and the validation of the name. *)
Definition create (req : Request) : Async S (Response CreateData) :=
  let authUser := user req in
  getNumberCirclesByOwner (id authUser)
    .then quota_gate
    .then (fun _ => addNewCircle (id authUser) (email authUser) (name req))
    .then (fun circleId =>
             resolve (json 200 (Transport.mk 200 None
                                  (Transport.Payload (mkCreateData circleId)))))
    .catch create_catch.

(** The handler of [router.get('/byUser', ...)]. *)
Definition byUser (req : Request) : Async S (Response (ByUserData C)) :=
  let authUser := user req in
  GetCircleByUser (id authUser)
    .then (fun result =>
             match result with
             | None => resolve formatError404Json
             | Some result =>
                 resolve (json 200 (Transport.mk 200 None
                                      (Transport.Payload (mkByUserData result))))
             end)
    .catch (fun error => resolve (formatError500Json error)).

End Handlers.

End CircleRoutes.

Module CircleView.
(** An entry of the list of circles of a user: [(id, name, isOwner,
    joinedAt)]. *)
Record t := mk { id : Z; name : string; isOwner : bool; joinedAt : option Z }.
End CircleView.

Module CircleService.
Import Js Db.

(** Modelled from the spec: [CircleService.GetCircleByUser]
    ([services/circleService] is not among the sources).  A circle is
    visible to a user if a membership row exists for the user and the
    circle, regardless of the owner flag; if the user belongs to none,
    the result is the not-found value ([null]) rather than an empty
    list. *)
Definition GetCircleByUser (userId : Z)
  : Async Store (option (list CircleView.t)) :=
  fun db =>
    let rows :=
      CM ← filter (fun CM => Member.userId CM = userId) (tb_circle_member db);
      CI ← filter (fun CI => Circle.id CI = Member.circleId CM) (tb_circle db);
      [CircleView.mk (Circle.id CI) (Circle.name CI)
                     (Member.isOwner CM) (Member.joinedAt CM)] in
    (Resolved (match rows with [] => None | _ => Some rows end), db).

End CircleService.

(* ===================================================================== *)
(** ** Regular expressions *)
(* ===================================================================== *)

Module RegExp.

(** The fragment of the regular expressions of JavaScript that the
    password pattern of [routes/user.js] is written in, with the [m] flag
    (the anchors match at line boundaries) and without captures.
    Characters are code units below 256. *)

(** A position in the input: the character just before it, if there is
    one, and the characters from it on. *)
Record Pos := mkPos { before : option ascii; rest : string }.

Inductive Pattern : Type :=
| Class (c : ascii -> bool)           (* one character of a class *)
| Bol                                 (* [^] *)
| Eol                                 (* [$] *)
| Seq (r1 r2 : Pattern)               (* [r1 r2] *)
| Star (r : Pattern)                  (* [r*] *)
| Repeat (min max : nat) (r : Pattern)  (* [r{min,max}] *)
| LookAhead (r : Pattern)             (* [(?=r)] *)
| NegLookAhead (r : Pattern).         (* [(?!r)] *)

(** LineTerminator: LF and CR. *)
Definition LineTerminator (a : ascii) : bool :=
  let n := N_of_ascii a in ((n =? 10) || (n =? 13))%N.

(** [.] without the [s] flag: anything but a line terminator. *)
Definition dot (a : ascii) : bool := negb (LineTerminator a).

(** [\d] *)
Definition digit (a : ascii) : bool :=
  let n := N_of_ascii a in ((48 <=? n) && (n <=? 57))%N.

(** [[a-z]] *)
Definition lower (a : ascii) : bool :=
  let n := N_of_ascii a in ((97 <=? n) && (n <=? 122))%N.

(** [[A-Z]] *)
Definition upper (a : ascii) : bool :=
  let n := N_of_ascii a in ((65 <=? n) && (n <=? 90))%N.

(** [\s]: white space and line terminators (TAB, LF, VT, FF, CR, SP and
    the no-break space). *)
Definition space (a : ascii) : bool :=
  let n := N_of_ascii a in
  ((9 <=? n) && (n <=? 13) || (n =? 32) || (n =? 160))%N.

(** [r*] from a position, greedily: another round of [r] that consumes
    something, then more rounds, or no round at all.  A round that
    consumes nothing is not taken. *)
Definition star (f : Pos -> list Pos) : nat -> Pos -> list Pos :=
  fix go (fuel : nat) (p : Pos) : list Pos :=
    match fuel with
    | O => [p]
    | S fuel' =>
        (f p ≫= fun q =>
           if (String.length (rest q) <? String.length (rest p))%nat
           then go fuel' q else [])
        ++ [p]
    end.

(** [r{min,max}] from a position, greedily. *)
Definition repeat (f : Pos -> list Pos) : nat -> nat -> Pos -> list Pos :=
  fix go (max min : nat) (p : Pos) : list Pos :=
    match max with
    | O => if (min =? 0)%nat then [p] else []
    | S max' =>
        (f p ≫= go max' (Nat.pred min))
        ++ (if (min =? 0)%nat then [p] else [])
    end.

(** The positions at which a match of [r] that starts at [p] can end, in
    the order in which backtracking tries them. *)
Fixpoint ends (r : Pattern) (p : Pos) : list Pos :=
  match r with
  | Class c =>
      match rest p with
      | String a s => if c a then [mkPos (Some a) s] else []
      | EmptyString => []
      end
  | Bol =>
      match before p with
      | None => [p]
      | Some a => if LineTerminator a then [p] else []
      end
  | Eol =>
      match rest p with
      | EmptyString => [p]
      | String a _ => if LineTerminator a then [p] else []
      end
  | Seq r1 r2 => ends r1 p ≫= ends r2
  | Star r => star (ends r) (String.length (rest p)) p
  | Repeat min max r => repeat (ends r) max min p
  | LookAhead r => match ends r p with [] => [] | _ => [p] end
  | NegLookAhead r => match ends r p with [] => [p] | _ => [] end
  end.

(** Whether [r] matches somewhere from [p] on: at [p], or at a later
    start. *)
Fixpoint search (r : Pattern) (before : option ascii) (s : string) : bool :=
  match ends r (mkPos before s) with
  | _ :: _ => true
  | [] =>
      match s with
      | String a s' => search r (Some a) s'
      | EmptyString => false
      end
  end.

(** [value.match(r)] with the [g] flag is an array of the matches, or
    [null] when there is none: [has_match] is whether it is an array. *)
Definition has_match (r : Pattern) (value : string) : bool :=
  search r None value.

End RegExp.

(* ===================================================================== *)
(** ** The user router *)
(* ===================================================================== *)

Module UserRoutes.
Import Js RegExp.

(** [/^(?=.*\d)(?=.*[a-z])(?=.*[A-Z])(?!.*\s).{6,13}$/gm] *)
Definition password_pattern : Pattern :=
  Seq Bol
 (Seq (LookAhead (Seq (Star (Class dot)) (Class digit)))
 (Seq (LookAhead (Seq (Star (Class dot)) (Class lower)))
 (Seq (LookAhead (Seq (Star (Class dot)) (Class upper)))
 (Seq (NegLookAhead (Seq (Star (Class dot)) (Class space)))
 (Seq (Repeat 6 13 (Class dot))
      Eol))))).

Definition password_message : string :=
  "Password requires one lower case letter, one upper case letter, one digit, 6-13 length, and no spaces".

(** The custom validator of [check('password')]: it returns [true], or a
    promise rejected with the message of the policy. *)
Definition password_custom (value : string) : Promise bool :=
  if negb (has_match password_pattern value) then
    Rejected (mkError password_message)
  else Resolved true.

(** The second argument of [new Transport(id, errors, data)] as this
    router gives it: [null], an array of messages, one message, or
    [undefined]. *)
Inductive Errors : Type :=
| ErrorsNull
| ErrorsArray (msgs : list string)
| ErrorsString (msg : string)
| ErrorsUndefined.

(** What a promise is rejected with in the handler of this router, which
    reads [error.message] of whatever it catches.  Any value can be a
    reason: [null], [undefined], or a value whose [message] can be read,
    be it an [Error] with its message or a value without that property,
    on which the read gives [undefined] ([None]). *)
Inductive Reason : Type :=
| ReasonNull
| ReasonUndefined
| ReasonValue (message : option string).

(** [new Error(msg)] *)
Definition new_Error (msg : string) : Reason := ReasonValue (Some msg).

(** The TypeError of reading [message] on [null] or on [undefined]. *)
Definition TypeError_reading_message (base : string) : Reason :=
  ReasonValue
    (Some ("Cannot read properties of " +:+ base +:+ " (reading 'message')")).

(** [error.message]: the message, or the TypeError the read throws. *)
Definition read_message (error : Reason) : Reason + option string :=
  match error with
  | ReasonNull => inl (TypeError_reading_message "null")
  | ReasonUndefined => inl (TypeError_reading_message "undefined")
  | ReasonValue message => inr message
  end.

(** A settled promise with any reason, and asynchronous code over a store
    that settles one: [Js.Promise] and [Js.Async] with [Reason] in place
    of [Js.Error]. *)
Inductive Settled (A : Type) : Type :=
| Fulfilled (a : A)
| RejectedWith (reason : Reason).
Arguments Fulfilled {A} a.
Arguments RejectedWith {A} reason.

Definition Task (S A : Type) : Type := S -> Settled A * S.

Definition task_resolve {S A} (a : A) : Task S A := fun s => (Fulfilled a, s).

Definition task_throw {S A} (reason : Reason) : Task S A :=
  fun s => (RejectedWith reason, s).

(** [p.then(f)] *)
Definition task_then {S A B} (p : Task S A) (f : A -> Task S B) : Task S B :=
  fun s =>
    match p s with
    | (Fulfilled a, s') => f a s'
    | (RejectedWith reason, s') => (RejectedWith reason, s')
    end.

(** [p.catch(h)] *)
Definition task_catch {S A} (p : Task S A) (h : Reason -> Task S A) : Task S A :=
  fun s =>
    match p s with
    | (Fulfilled a, s') => (Fulfilled a, s')
    | (RejectedWith reason, s') => h reason s'
    end.

(** [{ extId }] *)
Record CreateData (E : Type) := mkCreateData { extId : E }.
Arguments mkCreateData {E} extId.
Arguments extId {E} c.

(** [res.status(status).json(new Transport(id, errors, data))], with
    [data] either [null] or [{ extId }]; [res.json] answers with status
    200.  The envelope is the one of [Transport], kept here as the three
    arguments it is built from. *)
Inductive Response (E : Type) : Type :=
| json (status : Z) (id : Z) (errors : Errors) (data : option (CreateData E)).
Arguments json {E} status id errors data.

(** An entry of [validationResult(req).array()]; only [msg] is read. *)
Record ValidationError := mkValidationError { msg : string }.

(** [req.body] *)
Record Body := mkBody {
  email : string; password : string; firstName : string; lastName : string }.

Section Handlers.
(** [UserService.addNewUser] ([services/userService], not among the
    sources) is a parameter of the handler, over whatever state [S] it
    runs and whatever type [E] of external identifiers it resolves with
    ([None] is [null] or [undefined]).  So is the outcome of the
    validation chain, [validationResult(req)], given as the array of its
    errors. *)
Context {S E : Type}.
Variable addNewUser : string -> string -> string -> string -> Task S (option E).

(** The [.then] callback of [POST /create]. *)
Definition create_then (extId : option E) : Task S (Response E) :=
  match extId with
  | None => task_throw (new_Error "Internal Server Error")
  | Some extId =>
      task_resolve (json 200 200 ErrorsNull (Some (mkCreateData extId)))
  end.

(** The [.catch] callback of [POST /create]:
    [error.message !== 'undefined' ? error.message : 'Internal Server Error']
    is the second argument of the envelope.  Reading [error.message]
    throws when [error] is [null] or [undefined]; an absent message is
    not the string ['undefined'] and is passed on as [undefined]. *)
Definition create_catch (error : Reason) : Task S (Response E) :=
  match read_message error with
  | inl typeError => task_throw typeError
  | inr message =>
      task_resolve
        (json 500 500
           (match message with
            | Some m =>
                if negb (String.eqb m "undefined") then ErrorsString m
                else ErrorsString "Internal Server Error"
            | None => ErrorsUndefined
            end)
           None)
  end.

(** The handler of [router.post('/create', ...)], after the validation
    chain has run.  It ends fulfilled with the answer it sent, or rejected
    when the [.catch] callback threw and no answer was sent. *)
Definition create (errors : list ValidationError) (body : Body)
  : Task S (Response E) :=
  if negb (match errors with [] => true | _ => false end) then
    task_resolve (json 422 422 (ErrorsArray ((fun e => msg e) <$> errors)) None)
  else
    task_catch
      (task_then
         (addNewUser (email body) (password body) (firstName body)
                     (lastName body))
         create_then)
      create_catch.

End Handlers.

End UserRoutes.

(* ===================================================================== *)
(** ** Sample data *)
(* ===================================================================== *)

(** Two circles; user 10 owns both, user 11 is a member of the first, user
    12 of none. *)
Definition db0 : Db.Store :=
  Db.mkStore
    [Category.mk 1 "food"; Category.mk 2 "rent"]
    [Circle.mk 1 "Team A"; Circle.mk 2 "Team B"]
    [Member.mk 10 1 true None; Member.mk 11 1 false (Some 5);
     Member.mk 10 2 true None]
    [Bill.mk 1 1 10 "pizza" 30 1 100; Bill.mk 2 1 11 "flat" 900 2 300;
     Bill.mk 3 2 10 "cake" 12 1 200; Bill.mk 4 1 10 "sofa" 250 2 400]
    5
    [Budget.mk 1 1 10 "May" 500 120 150; Budget.mk 2 2 10 "trip" 800 90 95;
     Budget.mk 3 1 11 "June" 450 151 180]
    4.

(** A store without rows. *)
Definition db_empty : Db.Store := Db.mkStore [] [] [] [] 1 [] 1.

(** A circle service over a counter: the state is the number of circles
    the caller owns, and a new circle gets the next number as its id. *)
Definition counter_getNumberCirclesByOwner (ownerId : Z) : Js.Async Z Z :=
  fun owned => (Js.Resolved owned, owned).

Definition counter_addNewCircle (ownerId : Z) (email name : string)
  : Js.Async Z Z :=
  fun owned => (Js.Resolved (owned + 1), owned + 1).

Definition req_owner : CircleRoutes.Request :=
  CircleRoutes.mkRequest "Team C" (CircleRoutes.mkUser 10 "o@example.org").

(** A request of user 12, who belongs to no circle of [db0]. *)
Definition req_stranger : CircleRoutes.Request :=
  CircleRoutes.mkRequest "Team D" (CircleRoutes.mkUser 12 "m@example.org").

(* ===================================================================== *)
(** ** Predicates on the store *)
(* ===================================================================== *)

(** [userId] has a row in [tb_circle_member] for [circleId]. *)
Definition is_member (db : Db.Store) (userId circleId : Z) : Prop :=
  Exists (fun CM => Member.userId CM = userId /\ Member.circleId CM = circleId)
         (Db.tb_circle_member db).

#[global] Instance is_member_dec db userId circleId
  : Decision (is_member db userId circleId).
Proof. unfold is_member. apply _. Defined.

(** [categoryId] is the id of a row of [tb_plugin_expenses_categories]. *)
Definition is_category (db : Db.Store) (categoryId : Z) : Prop :=
  Exists (fun EC => Category.id EC = categoryId)
         (Db.tb_plugin_expenses_categories db).

#[global] Instance is_category_dec db categoryId
  : Decision (is_category db categoryId).
Proof. unfold is_category. apply _. Defined.

(** The round trip of adding a bill and listing the bills of the same user
    and circle: [addBill] resolves with an identifier, and [getBills],
    run on the store [addBill] leaves, resolves with rows sorted by
    [billDate], newest first, among which is a row with that identifier
    and the values given to [addBill]. *)
Definition bill_listed_after_add (db : Db.Store) (userId circleId : Z)
    (billName : string) (billAmount billCategoryId billDate : Z) : Prop :=
  exists (id : Z) (db1 : Db.Store) (rows : list BillRow.t),
    Expenses.addBill circleId userId billName billAmount billCategoryId billDate db
      = (Js.Resolved (Js.Num id), db1)
    /\ Expenses.getBills userId circleId db1 = (Js.Resolved (Some rows), db1)
    /\ (exists row, row ∈ rows
          /\ BillRow.id row = id
          /\ BillRow.billName row = billName
          /\ BillRow.billAmount row = billAmount
          /\ BillRow.billCategoryId row = billCategoryId
          /\ BillRow.billDate row = billDate)
    /\ StronglySorted (Db.desc BillRow.billDate) rows.

(** The row of the result set of [getBills] for a bill and its category,
    and the row of the result set of [getBudgets] for a budget. *)
Definition bill_row (PE : Bill.t) (EC : Category.t) : BillRow.t :=
  BillRow.mk (Bill.id PE) (Bill.billName PE) (Bill.billAmount PE)
             (Bill.billCategoryId PE) (Category.categoryName EC)
             (Bill.billDate PE).

Definition budget_row (PEB : Budget.t) : BudgetRow.t :=
  BudgetRow.mk (Budget.id PEB) (Budget.budgetName PEB) (Budget.budgetAmount PEB)
               (Budget.budgetStartDate PEB) (Budget.budgetEndDate PEB).

(** The store [db] with another membership table. *)
Definition with_members (db : Db.Store) (members : list Member.t) : Db.Store :=
  Db.mkStore (Db.tb_plugin_expenses_categories db) (Db.tb_circle db) members
    (Db.tb_plugin_expenses db) (Db.tb_plugin_expenses_auto_increment db)
    (Db.tb_plugin_expenses_budget db)
    (Db.tb_plugin_expenses_budget_auto_increment db).

(* ===================================================================== *)
(** ** Predicates on passwords and on identifiers *)
(* ===================================================================== *)

(** Some character of [s] is in the class [c]. *)
Fixpoint any (c : ascii -> bool) (s : string) : bool :=
  match s with
  | String a s' => c a || any c s'
  | EmptyString => false
  end.

(** The part of [s] after its last line terminator: all of [s] when it has
    none. *)
Fixpoint last_line (s : string) : string :=
  match s with
  | String a s' =>
      if any RegExp.LineTerminator s then last_line s' else s
  | EmptyString => EmptyString
  end.

(** The policy the message of the validator announces: 6 to 13
    characters, among them a digit, a lower case letter and an upper case
    letter, and no white space. *)
Definition password_policy (s : string) : bool :=
  (6 <=? String.length s)%nat && (String.length s <=? 13)%nat
  && any RegExp.digit s && any RegExp.lower s && any RegExp.upper s
  && negb (any RegExp.space s).

(** Some character of the first line of [s], or the line terminator that
    ends it, is in the class [c]: what [(?=.*c)] looks for. *)
Fixpoint reach (c : ascii -> bool) (s : string) : bool :=
  match s with
  | String a s' => c a || (RegExp.dot a && reach c s')
  | EmptyString => false
  end.

(** The length of the first line of [s]. *)
Fixpoint line_length (s : string) : nat :=
  match s with
  | String a s' => if RegExp.dot a then S (line_length s') else O
  | EmptyString => O
  end.

Definition nonempty {A} (l : list A) : bool :=
  match l with
  | [] => false
  | _ => true
  end.

(** [^] holds after [before]. *)
Definition at_line_start (before : option ascii) : bool :=
  match before with
  | None => true
  | Some a => RegExp.LineTerminator a
  end.

(** The primary keys of the two tables the class inserts into: the ids of
    a table are pairwise different and below its AUTO_INCREMENT counter. *)
Definition keys_ok (db : Db.Store) : Prop :=
  NoDup (Bill.id <$> Db.tb_plugin_expenses db)
  /\ Forall (fun PE => Bill.id PE < Db.tb_plugin_expenses_auto_increment db)
            (Db.tb_plugin_expenses db)
  /\ NoDup (Budget.id <$> Db.tb_plugin_expenses_budget db)
  /\ Forall (fun PEB => Budget.id PEB
                        < Db.tb_plugin_expenses_budget_auto_increment db)
            (Db.tb_plugin_expenses_budget db).

#[global] Instance keys_ok_dec db : Decision (keys_ok db).
Proof. unfold keys_ok. apply _. Defined.

(** A user service over a list of the e-mails registered so far: a new
    user gets the e-mail as external id, a registered one gets none. *)
Definition list_addNewUser (email password firstName lastName : string)
  : UserRoutes.Task (list string) (option string) :=
  fun users =>
    if bool_decide (email ∈ users) then (UserRoutes.Fulfilled None, users)
    else (UserRoutes.Fulfilled (Some email), email :: users).

(** A user service that rejects with [undefined]. *)
Definition failing_addNewUser (email password firstName lastName : string)
  : UserRoutes.Task (list string) (option string) :=
  fun users => (UserRoutes.RejectedWith UserRoutes.ReasonUndefined, users).


(** The rows [getBills] and [getBudgets] resolve with (none when they
    resolve with [null] or reject). *)
Definition bills_listed (db : Db.Store) (userId circleId : Z) : list BillRow.t :=
  match (Expenses.getBills userId circleId db).1 with
  | Js.Resolved (Some rows) => rows
  | _ => []
  end.

Definition budgets_listed (db : Db.Store) (userId circleId : Z)
  : list BudgetRow.t :=
  match (Expenses.getBudgets userId circleId db).1 with
  | Js.Resolved (Some rows) => rows
  | _ => []
  end.

Definition body_ann : UserRoutes.Body :=
  UserRoutes.mkBody "ann@example.org" "Secret12" "Ann" "Lee".

(* ===================================================================== *)
(** ** [parseInt] on integers *)
(* ===================================================================== *)

Section ParseInt.
Import Js.
Import DecimalPos.Unsigned.

Lemma parse_digits_uint (d a : uint) :
  parse_digits 10 (Some (Z.of_N (of_lu a))) (NilEmpty.string_of_uint d)
  = Some (Z.of_N (of_lu (revapp d a))).
Proof.
  revert a.
  induction d as [|d IH|d IH|d IH|d IH|d IH|d IH|d IH|d IH|d IH|d IH];
    intros a; [reflexivity|..];
    cbn [NilEmpty.string_of_uint parse_digits revapp];
    match goal with
    | |- context [digit_value ?c] =>
        let v := eval vm_compute in (digit_value c) in
        change (digit_value c) with v; cbv beta iota
    end.
  all: match goal with
       | |- context [?k <? 10] => change (k <? 10) with true; cbv beta iota
       end.
  all: rewrite <- IH; f_equal; f_equal; cbn [default of_lu]; unfold id; lia.
Qed.

Lemma parse_digits_first (d : uint) :
  d <> Nil ->
  parse_digits 10 None (NilEmpty.string_of_uint d)
  = Some (Z.of_N (Pos.of_uint d)).
Proof.
  intros Hd. rewrite of_uint_alt. unfold Decimal.rev.
  destruct d; [congruence|..];
    cbn [NilEmpty.string_of_uint parse_digits revapp];
    match goal with
    | |- context [digit_value ?c] =>
        let v := eval vm_compute in (digit_value c) in
        change (digit_value c) with v; cbv beta iota
    end.
  all: match goal with
       | |- context [?k <? 10] => change (k <? 10) with true; cbv beta iota
       end.
  all: rewrite <- parse_digits_uint; reflexivity.
Qed.

(** A string of decimal digits starts with neither white space, nor a
    sign, nor the [0x] prefix: [parseInt] reads it in radix 10, also
    behind a minus sign. *)
Lemma parseInt_string_uint (d : uint) :
  d <> Nil ->
  parseInt_string (NilEmpty.string_of_uint d) = Num (Z.of_N (Pos.of_uint d))
  /\ parseInt_string (String "-" (NilEmpty.string_of_uint d))
     = Num (- Z.of_N (Pos.of_uint d)).
Proof.
  intros Hd. generalize (parse_digits_first d Hd).
  destruct d as [|d|d|d|d|d|d|d|d|d|d]; [congruence|..].
  1: destruct d as [|d|d|d|d|d|d|d|d|d|d]; [split; reflexivity|..].
  all: intros H; cbn [NilEmpty.string_of_uint] in *; split;
    match goal with
    | |- parseInt_string (String "-" ?s) = _ =>
        change (parseInt_string (String "-" s))
          with (match parse_digits 10 None s with
                | None => NaN
                | Some mathInt => Num (-1 * mathInt)
                end)
    | |- parseInt_string ?s = _ =>
        change (parseInt_string s)
          with (match parse_digits 10 None s with
                | None => NaN
                | Some mathInt => Num (1 * mathInt)
                end)
    end; rewrite H; f_equal; lia.
Qed.

(** [parseInt] gives back every integer it is given. *)
Lemma parseInt_VNumber (z : Z) : parseInt (VNumber z) = Num z.
Proof.
  unfold parseInt, ToString.
  rewrite <- (DecimalZ.of_to z) at 2.
  destruct z as [|p|p]; [reflexivity|..]; cbn [Z.to_int NilZero.string_of_int].
  - unfold NilZero.string_of_uint.
    pose proof (to_uint_nonnil p) as Hp.
    destruct (Pos.to_uint p) eqn:E; [congruence|..]; rewrite <- E in *;
      apply parseInt_string_uint; assumption.
  - unfold NilZero.string_of_uint.
    pose proof (to_uint_nonnil p) as Hp.
    destruct (Pos.to_uint p) eqn:E; [congruence|..]; rewrite <- E in *;
      apply parseInt_string_uint; assumption.
Qed.

End ParseInt.

(* ===================================================================== *)
(** ** The statements, row by row *)
(* ===================================================================== *)

Section Statements.
Import Js Db.

#[local] Instance desc_total {A} (key : A -> Z) : Total (desc key).
Proof. intros x y. unfold desc. lia. Qed.

#[local] Instance desc_trans {A} (key : A -> Z) : Transitive (desc key).
Proof. intros x y z. unfold desc. lia. Qed.

Lemma order_by_desc_sorted {A} (key : A -> Z) (l : list A) :
  StronglySorted (desc key) (order_by_desc key l).
Proof. apply StronglySorted_merge_sort; apply _. Qed.

Lemma order_by_desc_perm {A} (key : A -> Z) (l : list A) :
  order_by_desc key l ≡ₚ l.
Proof. apply merge_sort_Permutation. Qed.

Lemma elem_of_order_by_desc {A} (key : A -> Z) (l : list A) (x : A) :
  x ∈ order_by_desc key l <-> x ∈ l.
Proof. by rewrite order_by_desc_perm. Qed.

Lemma elem_of_bills_joined db PE CM EC :
  (PE, CM, EC) ∈ bills_joined db <->
  PE ∈ tb_plugin_expenses db
  /\ CM ∈ tb_circle_member db
  /\ EC ∈ tb_plugin_expenses_categories db
  /\ Bill.circleId PE = Member.circleId CM
  /\ Bill.billCategoryId PE = Category.id EC.
Proof.
  unfold bills_joined. rewrite list_elem_of_bind. split.
  - intros (PE' & H & HPE).
    apply list_elem_of_bind in H as (CM' & H & HCM).
    apply list_elem_of_bind in H as (EC' & H & HEC).
    apply list_elem_of_singleton in H. inversion H; subst.
    apply list_elem_of_filter in HCM, HEC. tauto.
  - intros (HPE & HCM & HEC & Hc & Hk).
    exists PE. split; [|done].
    apply list_elem_of_bind. exists CM. split; [|by apply list_elem_of_filter].
    apply list_elem_of_bind. exists EC. split; [|by apply list_elem_of_filter].
    by apply list_elem_of_singleton.
Qed.

Lemma elem_of_budgets_joined db PEB CM :
  (PEB, CM) ∈ budgets_joined db <->
  PEB ∈ tb_plugin_expenses_budget db
  /\ CM ∈ tb_circle_member db
  /\ Budget.circleId PEB = Member.circleId CM.
Proof.
  unfold budgets_joined. rewrite list_elem_of_bind. split.
  - intros (PEB' & H & HPEB).
    apply list_elem_of_bind in H as (CM' & H & HCM).
    apply list_elem_of_singleton in H. inversion H; subst.
    apply list_elem_of_filter in HCM. tauto.
  - intros (HPEB & HCM & Hc).
    exists PEB. split; [|done].
    apply list_elem_of_bind. exists CM. split; [|by apply list_elem_of_filter].
    by apply list_elem_of_singleton.
Qed.

Lemma elem_of_select_bills db userId circleId row :
  row ∈ select_bills userId circleId db <->
  exists PE CM EC,
    (PE, CM, EC) ∈ bills_joined db
    /\ Member.userId CM = userId /\ Member.circleId CM = circleId
    /\ row = BillRow.mk (Bill.id PE) (Bill.billName PE) (Bill.billAmount PE)
                        (Bill.billCategoryId PE) (Category.categoryName EC)
                        (Bill.billDate PE).
Proof.
  unfold select_bills. rewrite list_elem_of_fmap. split.
  - intros ([[PE CM] EC] & -> & H).
    apply elem_of_order_by_desc, list_elem_of_filter in H as [[Hu Hc] H].
    by exists PE, CM, EC.
  - intros (PE & CM & EC & H & Hu & Hc & ->).
    exists (PE, CM, EC). split; [done|].
    apply elem_of_order_by_desc, list_elem_of_filter. by split.
Qed.

Lemma elem_of_select_budgets db userId circleId row :
  row ∈ select_budgets userId circleId db <->
  exists PEB CM,
    (PEB, CM) ∈ budgets_joined db
    /\ Member.userId CM = userId /\ Member.circleId CM = circleId
    /\ row = BudgetRow.mk (Budget.id PEB) (Budget.budgetName PEB)
                          (Budget.budgetAmount PEB) (Budget.budgetStartDate PEB)
                          (Budget.budgetEndDate PEB).
Proof.
  unfold select_budgets. rewrite list_elem_of_fmap. split.
  - intros ([PEB CM] & -> & H).
    apply elem_of_order_by_desc, list_elem_of_filter in H as [[Hu Hc] H].
    by exists PEB, CM.
  - intros (PEB & CM & H & Hu & Hc & ->).
    exists (PEB, CM). split; [done|].
    apply elem_of_order_by_desc, list_elem_of_filter. by split.
Qed.

Lemma select_bills_sorted db userId circleId :
  StronglySorted (desc BillRow.billDate) (select_bills userId circleId db).
Proof.
  unfold select_bills.
  eapply StronglySorted_fmap; [|apply order_by_desc_sorted].
  by intros [[PE CM] EC] [[PE' CM'] EC'].
Qed.

Lemma select_budgets_sorted db userId circleId :
  StronglySorted (desc BudgetRow.budgetStartDate)
                 (select_budgets userId circleId db).
Proof.
  unfold select_budgets.
  eapply StronglySorted_fmap; [|apply order_by_desc_sorted].
  by intros [PEB CM] [PEB' CM'].
Qed.

(** Without a membership row for the pair, the WHERE clause keeps no row
    of the join. *)
Lemma select_bills_non_member db userId circleId :
  ~ is_member db userId circleId -> select_bills userId circleId db = [].
Proof.
  intros Hno. apply elem_of_nil_inv. intros row Hrow.
  apply elem_of_select_bills in Hrow as (PE & CM & EC & H & Hu & Hc & _).
  apply elem_of_bills_joined in H as (_ & HCM & _).
  apply Hno, Exists_exists. by exists CM.
Qed.

Lemma select_budgets_non_member db userId circleId :
  ~ is_member db userId circleId -> select_budgets userId circleId db = [].
Proof.
  intros Hno. apply elem_of_nil_inv. intros row Hrow.
  apply elem_of_select_budgets in Hrow as (PEB & CM & H & Hu & Hc & _).
  apply elem_of_budgets_joined in H as (_ & HCM & _).
  apply Hno, Exists_exists. by exists CM.
Qed.

End Statements.

(* ===================================================================== *)
(** ** The methods, run on a store *)
(* ===================================================================== *)

Section Methods.
Import Js Db Expenses.

(** The guard [rows != null && rows.length >= 0] holds of every array. *)
Lemma guard_ge_array {R} (rows : list R) :
  not_null (QRows rows) && ge (length_of (QRows rows)) 0 = true.
Proof. cbn. apply Z.leb_le. lia. Qed.

Lemma spread_fmap {R} (rows : list R) : spread <$> rows = rows.
Proof. apply list_fmap_id. Qed.

Lemma getBills_then_array {S} (rows : list BillRow.t) (s : S) :
  getBills_then (QRows rows) s = (Resolved (Some rows), s).
Proof.
  unfold getBills_then. rewrite guard_ge_array, spread_fmap. reflexivity.
Qed.

Lemma getBudgets_then_array {S} (rows : list BudgetRow.t) (s : S) :
  getBudgets_then (QRows rows) s = (Resolved (Some rows), s).
Proof.
  unfold getBudgets_then. rewrite guard_ge_array, spread_fmap. reflexivity.
Qed.

Lemma getBills_run db userId circleId :
  getBills userId circleId db
  = (Resolved (Some (select_bills userId circleId db)), db).
Proof.
  unfold getBills, catch_, then_, query_rows.
  by rewrite getBills_then_array.
Qed.

Lemma getBudgets_run db userId circleId :
  getBudgets userId circleId db
  = (Resolved (Some (select_budgets userId circleId db)), db).
Proof.
  unfold getBudgets, catch_, then_, query_rows.
  by rewrite getBudgets_then_array.
Qed.

(** [addBill] on a store that takes the row, and on one that refuses
    it. *)
Lemma addBill_accepted db circleId userId billName billAmount billCategoryId
    billDate :
  is_category db billCategoryId ->
  addBill circleId userId billName billAmount billCategoryId billDate db
  = (Resolved (Num (tb_plugin_expenses_auto_increment db)),
     store_bill (Bill.mk (tb_plugin_expenses_auto_increment db) circleId userId
                         billName billAmount billCategoryId billDate) db).
Proof.
  intros Hk.
  unfold addBill, catch_, then_, query_checked, insert_bill.
  rewrite decide_True by exact Hk.
  unfold addBill_then, resolve. cbn [not_null insertId_of insertId].
  by rewrite parseInt_VNumber.
Qed.

Lemma addBill_refused db circleId userId billName billAmount billCategoryId
    billDate :
  ~ is_category db billCategoryId ->
  addBill circleId userId billName billAmount billCategoryId billDate db
  = (Rejected ER_NO_REFERENCED_ROW_2, db).
Proof.
  intros Hk.
  unfold addBill, catch_, then_, query_checked, insert_bill.
  by rewrite decide_False by exact Hk.
Qed.

(** [addBill] resolves exactly when the category of the bill is in the
    category table. *)
Lemma addBill_resolves_category db circleId userId billName billAmount
    billCategoryId billDate n db1 :
  addBill circleId userId billName billAmount billCategoryId billDate db
    = (Resolved n, db1) ->
  is_category db billCategoryId.
Proof.
  intros H. destruct (decide (is_category db billCategoryId)) as [|Hno]; [done|].
  rewrite addBill_refused in H by done. discriminate.
Qed.

Lemma addBudget_run db circleId userId budgetName budgetAmount
    budgetStartDate budgetEndDate :
  addBudget circleId userId budgetName budgetAmount budgetStartDate budgetEndDate db
  = (Resolved (Num (tb_plugin_expenses_budget_auto_increment db)),
     (insert_budget circleId userId budgetName budgetAmount
                    budgetStartDate budgetEndDate db).2).
Proof.
  unfold addBudget, catch_, then_, query_ok, addBudget_then, insert_budget, resolve.
  cbn [not_null insertId_of insertId snd]. by rewrite parseInt_VNumber.
Qed.

Lemma removeBill_run db userId billId circleId :
  removeBill userId billId circleId db
  = (Resolved (Num (affectedRows (delete_bill billId circleId db).1)),
     (delete_bill billId circleId db).2).
Proof.
  unfold removeBill, catch_, then_, query_ok, removeBill_then, delete_bill, resolve.
  cbn [not_null affectedRows_of affectedRows fst snd]. by rewrite parseInt_VNumber.
Qed.

Lemma removeBudget_run db userId budgetId circleId :
  removeBudget userId budgetId circleId db
  = (Resolved (Num (affectedRows (delete_budget budgetId circleId db).1)),
     (delete_budget budgetId circleId db).2).
Proof.
  unfold removeBudget, catch_, then_, query_ok, removeBudget_then, delete_budget,
    resolve.
  cbn [not_null affectedRows_of affectedRows fst snd]. by rewrite parseInt_VNumber.
Qed.

End Methods.

(* ===================================================================== *)
(** ** Reads are scoped by membership *)
(* ===================================================================== *)

(** Every row [getBills] returns is a bill of the requested circle, seen
    through a membership row of the requesting user. *)
Lemma getBills_rows_of_circle db userId circleId rows row :
  Expenses.getBills userId circleId db = (Js.Resolved (Some rows), db) ->
  row ∈ rows ->
  is_member db userId circleId
  /\ exists PE, PE ∈ Db.tb_plugin_expenses db
       /\ Bill.circleId PE = circleId /\ Bill.id PE = BillRow.id row.
Proof.
  rewrite getBills_run. intros [= <-] Hrow.
  apply elem_of_select_bills in Hrow as (PE & CM & EC & H & Hu & Hc & ->).
  apply elem_of_bills_joined in H as (HPE & HCM & _ & Hj & _).
  split.
  - apply Exists_exists. by exists CM.
  - exists PE. cbn. repeat split; [done|congruence].
Qed.

Lemma getBudgets_rows_of_circle db userId circleId rows row :
  Expenses.getBudgets userId circleId db = (Js.Resolved (Some rows), db) ->
  row ∈ rows ->
  is_member db userId circleId
  /\ exists PEB, PEB ∈ Db.tb_plugin_expenses_budget db
       /\ Budget.circleId PEB = circleId /\ Budget.id PEB = BudgetRow.id row.
Proof.
  rewrite getBudgets_run. intros [= <-] Hrow.
  apply elem_of_select_budgets in Hrow as (PEB & CM & H & Hu & Hc & ->).
  apply elem_of_budgets_joined in H as (HPEB & HCM & Hj).
  split.
  - apply Exists_exists. by exists CM.
  - exists PEB. cbn. repeat split; [done|congruence].
Qed.

(** C1: for a user and a circle without a membership row, [getBills] and
    [getBudgets] resolve with the empty array, hence with no row of any
    other circle either.  The membership test is the join and the WHERE
    clause of the one SELECT each method runs ([Db.select_bills],
    [Db.select_budgets]); the store is left as it was. *)
Theorem getBills_getBudgets_non_member_empty
    (db : Db.Store) (userId circleId : Z) :
  ~ is_member db userId circleId ->
  Expenses.getBills userId circleId db = (Js.Resolved (Some []), db)
  /\ Expenses.getBudgets userId circleId db = (Js.Resolved (Some []), db).
Proof.
  intros Hno. rewrite getBills_run, getBudgets_run.
  by rewrite select_bills_non_member, select_budgets_non_member.
Qed.

(** User 12 belongs to no circle of the sample store. *)
Lemma getBills_getBudgets_non_member_empty_witness :
  ~ is_member db0 12 1
  /\ Expenses.getBills 12 1 db0 = (Js.Resolved (Some []), db0)
  /\ Expenses.getBudgets 12 1 db0 = (Js.Resolved (Some []), db0).
Proof.
  assert (H : ~ is_member db0 12 1).
  { apply (bool_decide_unpack _). vm_compute. exact I. }
  split; [exact H|].
  exact (getBills_getBudgets_non_member_empty db0 12 1 H).
Defined.

(** A member of circle 1 only does not see the bills of circle 2. *)
Example getBills_other_circle :
  (Expenses.getBills 11 2 db0).1 = Js.Resolved (Some []).
Proof. reflexivity. Qed.

(* ===================================================================== *)
(** ** The quota of [POST /circle/create] *)
(* ===================================================================== *)

Section Create.
Import Js CircleRoutes.
Context {S : Type}.
Variable getNumberCirclesByOwner : Z -> Async S Z.
Variable addNewCircle : Z -> string -> string -> Async S Z.

(** The gate lets a count through exactly when it is below 2. *)
Lemma quota_gate_allows (result : Z) (s : S) :
  result < 2 -> quota_gate result s = (Resolved result, s).
Proof. intros H. unfold quota_gate. by rewrite (proj2 (Z.ltb_lt _ _) H). Qed.

Lemma quota_gate_denies (result : Z) (s : S) :
  2 <= result -> quota_gate result s = (Rejected (mkError limit_message), s).
Proof. intros H. unfold quota_gate. by rewrite (proj2 (Z.ltb_ge _ _) H). Qed.

(** A fault of the count itself is answered with the generic 500 helper,
    unless its message is the one of the quota. *)
Lemma create_count_fails (req : Request) (s s1 : S) (e : Error) :
  getNumberCirclesByOwner (id (user req)) s = (Rejected e, s1) ->
  message e <> limit_message ->
  create getNumberCirclesByOwner addNewCircle req s
  = (Resolved (formatError500Json e), s1).
Proof.
  intros Hn Hm. unfold create, catch_, then_. rewrite Hn.
  unfold create_catch. by rewrite (proj2 (String.eqb_neq _ _) Hm).
Qed.

End Create.

(** C2: when the service counts [n] circles owned by the caller, the gate
    of [POST /circle/create] lets the request through if and only if
    [n < 2].  Below 2 (so with 0 or 1 owned circles) [addNewCircle] is run
    and its outcome answered; from 2 on (so with exactly 2) the answer is
    the 422 envelope carrying the quota message, without [data], and
    [addNewCircle] is not run. *)
Theorem create_allowed_iff_below_quota {S : Type}
    (getNumberCirclesByOwner : Z -> Js.Async S Z)
    (addNewCircle : Z -> string -> string -> Js.Async S Z)
    (req : CircleRoutes.Request) (s s1 : S) (n : Z) :
  getNumberCirclesByOwner (CircleRoutes.id (CircleRoutes.user req)) s
    = (Js.Resolved n, s1) ->
  ((exists v, CircleRoutes.quota_gate n s1 = (Js.Resolved v, s1)) <-> n < 2)
  /\ (n < 2 ->
      CircleRoutes.create getNumberCirclesByOwner addNewCircle req s
      = match addNewCircle (CircleRoutes.id (CircleRoutes.user req))
                (CircleRoutes.email (CircleRoutes.user req))
                (CircleRoutes.name req) s1 with
        | (Js.Resolved circleId, s2) =>
            (Js.Resolved
               (CircleRoutes.json 200
                  (Transport.mk 200 None
                     (Transport.Payload (CircleRoutes.mkCreateData circleId)))),
             s2)
        | (Js.Rejected e, s2) => CircleRoutes.create_catch e s2
        end)
  /\ (2 <= n ->
      forall addNewCircle' : Z -> string -> string -> Js.Async S Z,
      CircleRoutes.create getNumberCirclesByOwner addNewCircle' req s
      = (Js.Resolved
           (CircleRoutes.json 422
              (Transport.mk 422 (Some [CircleRoutes.limit_message])
                            Transport.Deleted)),
         s1)).
Proof.
  intros Hn. split; [|split].
  - split.
    + intros [v Hv]. destruct (Z.lt_ge_cases n 2) as [|Hge]; [done|].
      rewrite quota_gate_denies in Hv by done. discriminate.
    + intros Hlt. exists n. by apply quota_gate_allows.
  - intros Hlt. unfold CircleRoutes.create, Js.catch_, Js.then_.
    rewrite Hn, quota_gate_allows by done.
    by destruct (addNewCircle _ _ _ s1) as [[circleId|e] s2].
  - intros Hge addNewCircle'. unfold CircleRoutes.create, Js.catch_, Js.then_.
    rewrite Hn, quota_gate_denies by done. reflexivity.
Qed.

(** An owner of two circles is denied by the counter service. *)
Lemma create_allowed_iff_below_quota_witness :
  counter_getNumberCirclesByOwner 10 2 = (Js.Resolved 2, 2)
  /\ CircleRoutes.create counter_getNumberCirclesByOwner counter_addNewCircle
       req_owner 2
     = (Js.Resolved
          (CircleRoutes.json 422
             (Transport.mk 422 (Some [CircleRoutes.limit_message])
                           Transport.Deleted)),
        2).
Proof.
  split; [reflexivity|].
  refine (proj2 (proj2 (create_allowed_iff_below_quota
                          counter_getNumberCirclesByOwner counter_addNewCircle
                          req_owner 2 2 2 eq_refl)) _ counter_addNewCircle).
  lia.
Defined.

(** The scenario of the spec: the first two circles are created with ids 1
    and 2, the third is denied. *)
Example create_three_times :
  let create := CircleRoutes.create counter_getNumberCirclesByOwner
                                    counter_addNewCircle req_owner in
  let ok circleId :=
    Js.Resolved (CircleRoutes.json 200
      (Transport.mk 200 None
         (Transport.Payload (CircleRoutes.mkCreateData circleId)))) in
  create 0 = (ok 1, 1)
  /\ create 1 = (ok 2, 2)
  /\ create 2
     = (Js.Resolved
          (CircleRoutes.json 422
             (Transport.mk 422 (Some ["You reached the free account limit."])
                           Transport.Deleted)),
        2).
Proof. repeat split. Qed.

(* ===================================================================== *)
(** ** [GET /circle/byUser] *)
(* ===================================================================== *)

Section ByUser.
Import Js CircleRoutes.
Context {S C : Type}.
Variable GetCircleByUser : Z -> Async S (option (list C)).

(** The handler answers 404 when the service resolves with [null] ... *)
Lemma byUser_null (req : Request) (s s1 : S) :
  GetCircleByUser (id (user req)) s = (Resolved None, s1) ->
  byUser GetCircleByUser req s = (Resolved formatError404Json, s1).
Proof. intros H. unfold byUser, catch_, then_. by rewrite H. Qed.

(** ... and with anything else it answers 200: an empty array coming from
    the service would be passed on as an empty list. *)
Lemma byUser_array (req : Request) (s s1 : S) (result : list C) :
  GetCircleByUser (id (user req)) s = (Resolved (Some result), s1) ->
  byUser GetCircleByUser req s
  = (Resolved (json 200 (Transport.mk 200 None
                           (Transport.Payload (mkByUserData result)))), s1).
Proof. intros H. unfold byUser, catch_, then_. by rewrite H. Qed.

End ByUser.

(** The service never resolves with an empty array. *)
Lemma GetCircleByUser_not_empty db userId :
  (CircleService.GetCircleByUser userId db).1 <> Js.Resolved (Some []).
Proof.
  unfold CircleService.GetCircleByUser. cbn [fst].
  by destruct (_ ≫= _).
Qed.

(** C5: for a user without any membership row, [GET /circle/byUser]
    answers with the not-found helper (the 404 signal), not with a 200
    envelope around an empty list. *)
Theorem byUser_no_membership_not_found
    (db : Db.Store) (req : CircleRoutes.Request) :
  Forall (fun CM => Member.userId CM <> CircleRoutes.id (CircleRoutes.user req))
         (Db.tb_circle_member db) ->
  CircleRoutes.byUser CircleService.GetCircleByUser req db
  = (Js.Resolved CircleRoutes.formatError404Json, db).
Proof.
  intros Hno. apply byUser_null.
  unfold CircleService.GetCircleByUser.
  replace (filter _ (Db.tb_circle_member db)) with (@nil Member.t); [done|].
  symmetry. apply elem_of_nil_inv. intros CM HCM.
  apply list_elem_of_filter in HCM as [Hu HCM].
  rewrite Forall_forall in Hno. by apply (Hno CM).
Qed.

(** User 12 of the sample store belongs to no circle. *)
Lemma byUser_no_membership_not_found_witness :
  Forall (fun CM => Member.userId CM <> 12) (Db.tb_circle_member db0)
  /\ CircleRoutes.byUser CircleService.GetCircleByUser req_stranger db0
     = (Js.Resolved CircleRoutes.formatError404Json, db0).
Proof.
  assert (H : Forall (fun CM => Member.userId CM <> 12) (Db.tb_circle_member db0)).
  { apply (bool_decide_unpack _). vm_compute. exact I. }
  split; [exact H|].
  exact (byUser_no_membership_not_found db0 req_stranger H).
Defined.

(* ===================================================================== *)
(** ** Deletes are scoped by the circle, not by the caller *)
(* ===================================================================== *)

Section Filters.
Context {A : Type} (P : A -> Prop) `{!forall x, Decision (P x)}.

Lemma filter_none (l : list A) : Forall (fun x => ~ P x) l -> filter P l = [].
Proof.
  induction 1 as [|x l Hx _ IH]; [done|].
  by rewrite filter_cons_False.
Qed.

Lemma filter_all (l : list A) : Forall P l -> filter P l = l.
Proof.
  induction 1 as [|x l Hx _ IH]; [done|].
  rewrite filter_cons_True by done. by f_equal.
Qed.

End Filters.

(** The rows [removeBill] leaves are the rows that do not match both the
    id and the circle, and the count it resolves with is the number of
    rows that match both. *)
Lemma removeBill_deletes_matching db userId billId circleId :
  exists db1,
    Expenses.removeBill userId billId circleId db
    = (Js.Resolved
         (Js.Num (Z.of_nat (length (filter
            (fun PE => Bill.id PE = billId /\ Bill.circleId PE = circleId)
            (Db.tb_plugin_expenses db))))),
       db1)
    /\ (forall PE, PE ∈ Db.tb_plugin_expenses db1 <->
          PE ∈ Db.tb_plugin_expenses db
          /\ ~ (Bill.id PE = billId /\ Bill.circleId PE = circleId))
    /\ Db.tb_plugin_expenses_budget db1 = Db.tb_plugin_expenses_budget db
    /\ Db.tb_circle_member db1 = Db.tb_circle_member db.
Proof.
  rewrite removeBill_run. eexists. split; [reflexivity|].
  cbn. split; [|done]. intros PE. rewrite list_elem_of_filter. tauto.
Qed.

Lemma removeBudget_deletes_matching db userId budgetId circleId :
  exists db1,
    Expenses.removeBudget userId budgetId circleId db
    = (Js.Resolved
         (Js.Num (Z.of_nat (length (filter
            (fun PEB => Budget.id PEB = budgetId /\ Budget.circleId PEB = circleId)
            (Db.tb_plugin_expenses_budget db))))),
       db1)
    /\ (forall PEB, PEB ∈ Db.tb_plugin_expenses_budget db1 <->
          PEB ∈ Db.tb_plugin_expenses_budget db
          /\ ~ (Budget.id PEB = budgetId /\ Budget.circleId PEB = circleId))
    /\ Db.tb_plugin_expenses db1 = Db.tb_plugin_expenses db
    /\ Db.tb_circle_member db1 = Db.tb_circle_member db.
Proof.
  rewrite removeBudget_run. eexists. split; [reflexivity|].
  cbn. split; [|done]. intros PEB. rewrite list_elem_of_filter. tauto.
Qed.

(** C3: [removeBill] and [removeBudget] delete by id and circle together.
    When no bill has both the given id and the given circle -- whatever
    bills of other circles carry that id -- [removeBill] resolves with 0
    and leaves the store as it was; likewise [removeBudget]. *)
Theorem remove_mismatched_circle_deletes_nothing
    (db : Db.Store) (userId billId budgetId circleId : Z) :
  Forall (fun PE => Bill.id PE = billId -> Bill.circleId PE <> circleId)
         (Db.tb_plugin_expenses db) ->
  Forall (fun PEB => Budget.id PEB = budgetId -> Budget.circleId PEB <> circleId)
         (Db.tb_plugin_expenses_budget db) ->
  Expenses.removeBill userId billId circleId db = (Js.Resolved (Js.Num 0), db)
  /\ Expenses.removeBudget userId budgetId circleId db
     = (Js.Resolved (Js.Num 0), db).
Proof.
  intros Hbills Hbudgets.
  rewrite removeBill_run, removeBudget_run.
  unfold Db.delete_bill, Db.delete_budget. cbn [fst snd Db.affectedRows].
  rewrite (filter_none (fun PE => Bill.id PE = billId /\ Bill.circleId PE = circleId)),
          (filter_all (fun PE => ~ (Bill.id PE = billId /\ Bill.circleId PE = circleId))),
          (filter_none (fun PEB => Budget.id PEB = budgetId
                                   /\ Budget.circleId PEB = circleId)),
          (filter_all (fun PEB => ~ (Budget.id PEB = budgetId
                                     /\ Budget.circleId PEB = circleId))).
  - by destruct db.
  - eapply Forall_impl; [exact Hbudgets|]. cbn. tauto.
  - eapply Forall_impl; [exact Hbudgets|]. cbn. tauto.
  - eapply Forall_impl; [exact Hbills|]. cbn. tauto.
  - eapply Forall_impl; [exact Hbills|]. cbn. tauto.
Qed.

(** Bill 3 and budget 2 of the sample store belong to circle 2: asking to
    remove them from circle 1 removes nothing. *)
Lemma remove_mismatched_circle_deletes_nothing_witness :
  Forall (fun PE => Bill.id PE = 3 -> Bill.circleId PE <> 1)
         (Db.tb_plugin_expenses db0)
  /\ Forall (fun PEB => Budget.id PEB = 2 -> Budget.circleId PEB <> 1)
            (Db.tb_plugin_expenses_budget db0)
  /\ Expenses.removeBill 10 3 1 db0 = (Js.Resolved (Js.Num 0), db0)
  /\ Expenses.removeBudget 10 2 1 db0 = (Js.Resolved (Js.Num 0), db0).
Proof.
  assert (H1 : Forall (fun PE => Bill.id PE = 3 -> Bill.circleId PE <> 1)
                      (Db.tb_plugin_expenses db0)).
  { apply (bool_decide_unpack _). vm_compute. exact I. }
  assert (H2 : Forall (fun PEB => Budget.id PEB = 2 -> Budget.circleId PEB <> 1)
                      (Db.tb_plugin_expenses_budget db0)).
  { apply (bool_decide_unpack _). vm_compute. exact I. }
  split; [exact H1|]. split; [exact H2|].
  exact (remove_mismatched_circle_deletes_nothing db0 10 3 2 1 H1 H2).
Defined.

(** With the circle the bill belongs to, the row is removed. *)
Example removeBill_matching_circle :
  (Expenses.removeBill 10 3 2 db0).1 = Js.Resolved (Js.Num 1)
  /\ Bill.id <$> Db.tb_plugin_expenses (Expenses.removeBill 10 3 2 db0).2
     = [1; 2; 4].
Proof. split; reflexivity. Qed.

(** C4: the [userId] argument of [removeBill] and of [removeBudget] takes
    no part in the delete: two callers get the same count and leave the
    same store, and so does one caller whatever the membership table
    holds. *)
Theorem remove_ignores_caller
    (db : Db.Store) (u1 u2 id circleId : Z) (members : list Member.t) :
  Expenses.removeBill u1 id circleId db = Expenses.removeBill u2 id circleId db
  /\ Expenses.removeBudget u1 id circleId db
     = Expenses.removeBudget u2 id circleId db
  /\ (Expenses.removeBill u1 id circleId (with_members db members)).1
     = (Expenses.removeBill u1 id circleId db).1
  /\ Db.tb_plugin_expenses
       (Expenses.removeBill u1 id circleId (with_members db members)).2
     = Db.tb_plugin_expenses (Expenses.removeBill u1 id circleId db).2
  /\ (Expenses.removeBudget u1 id circleId (with_members db members)).1
     = (Expenses.removeBudget u1 id circleId db).1
  /\ Db.tb_plugin_expenses_budget
       (Expenses.removeBudget u1 id circleId (with_members db members)).2
     = Db.tb_plugin_expenses_budget (Expenses.removeBudget u1 id circleId db).2.
Proof.
  rewrite !removeBill_run, !removeBudget_run. repeat split.
Qed.

(** User 12 belongs to no circle and removes bill 1 of circle 1. *)
Example removeBill_by_non_member :
  ~ is_member db0 12 1
  /\ (Expenses.removeBill 12 1 1 db0).1 = Js.Resolved (Js.Num 1)
  /\ Bill.id <$> Db.tb_plugin_expenses (Expenses.removeBill 12 1 1 db0).2
     = [2; 3; 4].
Proof.
  split; [|split; reflexivity].
  apply (bool_decide_unpack _). vm_compute. exact I.
Qed.

(* ===================================================================== *)
(** ** Listing: order and content *)
(* ===================================================================== *)

(** C7: for a member of the circle, [getBills] resolves with the bills of
    the circle (those whose category is in the category table, each with
    the name of its category) sorted by [billDate], newest first, and
    [getBudgets] with the budgets of the circle sorted by
    [budgetStartDate], newest first. *)
Theorem getBills_getBudgets_newest_first
    (db : Db.Store) (userId circleId : Z) :
  is_member db userId circleId ->
  exists (bills : list BillRow.t) (budgets : list BudgetRow.t),
    Expenses.getBills userId circleId db = (Js.Resolved (Some bills), db)
    /\ StronglySorted (Db.desc BillRow.billDate) bills
    /\ (forall row, row ∈ bills <->
          exists PE EC,
            PE ∈ Db.tb_plugin_expenses db
            /\ EC ∈ Db.tb_plugin_expenses_categories db
            /\ Bill.circleId PE = circleId
            /\ Bill.billCategoryId PE = Category.id EC
            /\ row = bill_row PE EC)
    /\ Expenses.getBudgets userId circleId db = (Js.Resolved (Some budgets), db)
    /\ StronglySorted (Db.desc BudgetRow.budgetStartDate) budgets
    /\ (forall row, row ∈ budgets <->
          exists PEB,
            PEB ∈ Db.tb_plugin_expenses_budget db
            /\ Budget.circleId PEB = circleId
            /\ row = budget_row PEB).
Proof.
  intros Hm. apply Exists_exists in Hm as (CM & HCM & Hu & Hc).
  exists (Db.select_bills userId circleId db),
         (Db.select_budgets userId circleId db).
  split; [apply getBills_run|].
  split; [apply select_bills_sorted|].
  split.
  { intros row. rewrite elem_of_select_bills. split.
    - intros (PE & CM' & EC & H & Hu' & Hc' & ->).
      apply elem_of_bills_joined in H as (HPE & _ & HEC & Hj & Hk).
      exists PE, EC. repeat split; try done. congruence.
    - intros (PE & EC & HPE & HEC & HcPE & Hk & ->).
      exists PE, CM, EC. repeat split; try done.
      apply elem_of_bills_joined. repeat split; try done. congruence. }
  split; [apply getBudgets_run|].
  split; [apply select_budgets_sorted|].
  intros row. rewrite elem_of_select_budgets. split.
  - intros (PEB & CM' & H & Hu' & Hc' & ->).
    apply elem_of_budgets_joined in H as (HPEB & _ & Hj).
    exists PEB. repeat split; try done. congruence.
  - intros (PEB & HPEB & HcPEB & ->).
    exists PEB, CM. repeat split; try done.
    apply elem_of_budgets_joined. repeat split; try done. congruence.
Qed.

(** User 11 is a member of circle 1 of the sample store. *)
Lemma getBills_getBudgets_newest_first_witness :
  is_member db0 11 1
  /\ exists (bills : list BillRow.t) (budgets : list BudgetRow.t),
    Expenses.getBills 11 1 db0 = (Js.Resolved (Some bills), db0)
    /\ StronglySorted (Db.desc BillRow.billDate) bills
    /\ (forall row, row ∈ bills <->
          exists PE EC,
            PE ∈ Db.tb_plugin_expenses db0
            /\ EC ∈ Db.tb_plugin_expenses_categories db0
            /\ Bill.circleId PE = 1
            /\ Bill.billCategoryId PE = Category.id EC
            /\ row = bill_row PE EC)
    /\ Expenses.getBudgets 11 1 db0 = (Js.Resolved (Some budgets), db0)
    /\ StronglySorted (Db.desc BudgetRow.budgetStartDate) budgets
    /\ (forall row, row ∈ budgets <->
          exists PEB,
            PEB ∈ Db.tb_plugin_expenses_budget db0
            /\ Budget.circleId PEB = 1
            /\ row = budget_row PEB).
Proof.
  assert (H : is_member db0 11 1).
  { apply (bool_decide_unpack _). vm_compute. exact I. }
  split; [exact H|].
  exact (getBills_getBudgets_newest_first db0 11 1 H).
Defined.

(** On the sample store: bills 4, 2 and 1 of circle 1, in that order, and
    budgets 3 and 1. *)
Example getBills_getBudgets_sample :
  (Expenses.getBills 11 1 db0).1
  = Js.Resolved (Some [BillRow.mk 4 "sofa" 250 2 "rent" 400;
                       BillRow.mk 2 "flat" 900 2 "rent" 300;
                       BillRow.mk 1 "pizza" 30 1 "food" 100])
  /\ (Expenses.getBudgets 11 1 db0).1
     = Js.Resolved (Some [BudgetRow.mk 3 "June" 450 151 180;
                          BudgetRow.mk 1 "May" 500 120 150]).
Proof. split; reflexivity. Qed.

(* ===================================================================== *)
(** ** Adding, then listing *)
(* ===================================================================== *)

(** For a member of the circle and a bill whose category is in the
    category table, the round trip holds. *)
Lemma bill_listed_after_add_category
    (db : Db.Store) (userId circleId : Z)
    (billName : string) (billAmount billCategoryId billDate : Z) :
  is_member db userId circleId ->
  is_category db billCategoryId ->
  bill_listed_after_add db userId circleId
                        billName billAmount billCategoryId billDate.
Proof.
  intros Hm Hk.
  pose proof Hk as Hk'.
  apply Exists_exists in Hm as (CM & HCM & Hu & Hc).
  apply Exists_exists in Hk' as (EC & HEC & Hid).
  unfold bill_listed_after_add. do 3 eexists.
  split; [by apply addBill_accepted|].
  split; [apply getBills_run|].
  split; [|apply select_bills_sorted].
  set (PE := Bill.mk (Db.tb_plugin_expenses_auto_increment db) circleId userId
                     billName billAmount billCategoryId billDate).
  exists (bill_row PE EC). split; [|done].
  apply elem_of_select_bills. exists PE, CM, EC. repeat split; try done.
  apply elem_of_bills_joined. cbn. repeat split; try done.
  apply elem_of_app. right. by apply list_elem_of_singleton.
Qed.

(** C6: for a member of the circle, whenever [addBill] for the circle and
    the user has resolved, [getBills] for the same user and circle, run on
    the store [addBill] left, lists the new bill (under the id [addBill]
    resolved with and with the values it was given), in a list sorted by
    [billDate], newest first.  The store takes a bill only with a category
    of the category table, which is what the inner join of the SELECT
    needs. *)
Theorem addBill_then_getBills_lists_bill
    (db db1 : Db.Store) (userId circleId : Z)
    (billName : string) (billAmount billCategoryId billDate : Z)
    (n : Js.Number) :
  is_member db userId circleId ->
  Expenses.addBill circleId userId billName billAmount billCategoryId billDate db
    = (Js.Resolved n, db1) ->
  bill_listed_after_add db userId circleId
                        billName billAmount billCategoryId billDate.
Proof.
  intros Hm Hadd.
  apply bill_listed_after_add_category; [exact Hm|].
  by eapply addBill_resolves_category.
Qed.

(** User 10 adds a bill of category 1 to circle 1 of the sample store. *)
Lemma addBill_then_getBills_lists_bill_witness :
  is_member db0 10 1
  /\ Expenses.addBill 1 10 "gift" 20 1 500 db0
     = (Js.Resolved (Js.Num 5),
        Db.store_bill (Bill.mk 5 1 10 "gift" 20 1 500) db0)
  /\ bill_listed_after_add db0 10 1 "gift" 20 1 500.
Proof.
  assert (Hm : is_member db0 10 1).
  { apply (bool_decide_unpack _). vm_compute. exact I. }
  assert (Hadd : Expenses.addBill 1 10 "gift" 20 1 500 db0
                 = (Js.Resolved (Js.Num 5),
                    Db.store_bill (Bill.mk 5 1 10 "gift" 20 1 500) db0))
    by reflexivity.
  split; [exact Hm|]. split; [exact Hadd|].
  exact (addBill_then_getBills_lists_bill db0 _ 10 1 "gift" 20 1 500 _ Hm Hadd).
Defined.

(** A bill whose category is the id of no category row is refused by the
    store: [addBill] passes the fault on and nothing is stored. *)
Example addBill_unknown_category_refused :
  Expenses.addBill 1 10 "gift" 20 99 500 db0
  = (Js.Rejected Db.ER_NO_REFERENCED_ROW_2, db0).
Proof. reflexivity. Qed.

(* ===================================================================== *)
(** ** What the callbacks return *)
(* ===================================================================== *)

(** C8: [addBill] and [addBudget] check nothing themselves: they hand
    their arguments to the INSERT as they are and resolve with the
    identifier the insert reports (the [insertId] of the result
    descriptor, through [parseInt]), the row being stored as given; when
    the query resolves with [null] instead of a descriptor they resolve
    with 0.  The one refusal is the store's own: a bill whose category is
    the id of no category row breaks the foreign key, and [addBill] passes
    the fault of the store on unchanged. *)
Theorem addBill_addBudget_identifier_or_zero
    (db : Db.Store) (circleId userId : Z) (name : string)
    (amount billCategoryId billDate budgetStartDate budgetEndDate : Z)
    (ok : Db.OkPacket) :
  (is_category db billCategoryId ->
   exists id db1,
     Expenses.addBill circleId userId name amount billCategoryId billDate db
     = (Js.Resolved (Js.Num id), db1)
     /\ Db.tb_plugin_expenses db1
        = Db.tb_plugin_expenses db
          ++ [Bill.mk id circleId userId name amount billCategoryId billDate])
  /\ (~ is_category db billCategoryId ->
      Expenses.addBill circleId userId name amount billCategoryId billDate db
      = (Js.Rejected Db.ER_NO_REFERENCED_ROW_2, db))
  /\ (exists id db1,
       Expenses.addBudget circleId userId name amount
                          budgetStartDate budgetEndDate db
       = (Js.Resolved (Js.Num id), db1)
       /\ Db.tb_plugin_expenses_budget db1
          = Db.tb_plugin_expenses_budget db
            ++ [Budget.mk id circleId userId name amount
                          budgetStartDate budgetEndDate])
  /\ Expenses.addBill_then (Db.QOk ok) db
     = (Js.Resolved (Js.Num (Db.insertId ok)), db)
  /\ Expenses.addBudget_then (Db.QOk ok) db
     = (Js.Resolved (Js.Num (Db.insertId ok)), db)
  /\ Expenses.addBill_then Db.QNull db = (Js.Resolved (Js.Num 0), db)
  /\ Expenses.addBudget_then Db.QNull db = (Js.Resolved (Js.Num 0), db).
Proof.
  split; [|split; [|split]].
  - intros Hk. do 2 eexists. split; [by apply addBill_accepted|reflexivity].
  - apply addBill_refused.
  - do 2 eexists. split; [apply addBudget_run|reflexivity].
  - unfold Expenses.addBill_then, Expenses.addBudget_then. cbn.
    rewrite parseInt_VNumber. repeat split.
Qed.

(** On the sample store: a bill of category 1 is stored under id 5, a
    bill of category 99 is refused. *)
Lemma addBill_addBudget_identifier_or_zero_witness :
  is_category db0 1
  /\ ~ is_category db0 99
  /\ (exists id db1,
        Expenses.addBill 1 10 "gift" 20 1 500 db0 = (Js.Resolved (Js.Num id), db1)
        /\ Db.tb_plugin_expenses db1
           = Db.tb_plugin_expenses db0 ++ [Bill.mk id 1 10 "gift" 20 1 500])
  /\ Expenses.addBill 1 10 "gift" 20 99 500 db0
     = (Js.Rejected Db.ER_NO_REFERENCED_ROW_2, db0).
Proof.
  assert (H1 : is_category db0 1).
  { apply (bool_decide_unpack _). vm_compute. exact I. }
  assert (H99 : ~ is_category db0 99).
  { apply (bool_decide_unpack _). vm_compute. exact I. }
  split; [exact H1|]. split; [exact H99|]. split.
  - exact (proj1 (addBill_addBudget_identifier_or_zero
                    db0 1 10 "gift" 20 1 500 600 700 (Db.mkOk 0 0)) H1).
  - exact (proj1 (proj2 (addBill_addBudget_identifier_or_zero
                           db0 1 10 "gift" 20 99 500 600 700 (Db.mkOk 0 0))) H99).
Defined.

(** A result that is neither [null] nor a descriptor, such as an array,
    has no [insertId]: the callback then resolves with [NaN], not with 0. *)
Example addBill_then_no_insertId :
  Expenses.addBill_then (Db.QRows []) db_empty = (Js.Resolved Js.NaN, db_empty).
Proof. reflexivity. Qed.

(** C9: given an array of rows, empty or not, the callbacks of [getBills]
    and [getBudgets] resolve with that array and never with [null]: their
    guard, [!= null && length >= 0], holds of every array.  So both
    methods resolve with an array on every store, whereas the callback of
    [getBillCategories], whose guard is [length > 0], turns the empty
    array into [null]. *)
Theorem getBills_getBudgets_never_null_on_array
    (db : Db.Store) (userId circleId : Z)
    (bills : list BillRow.t) (budgets : list BudgetRow.t) :
  Db.not_null (Db.QRows bills) && Js.ge (Db.length_of (Db.QRows bills)) 0 = true
  /\ Db.not_null (Db.QRows budgets) && Js.ge (Db.length_of (Db.QRows budgets)) 0
     = true
  /\ Expenses.getBills_then (Db.QRows bills) db = (Js.Resolved (Some bills), db)
  /\ Expenses.getBudgets_then (Db.QRows budgets) db
     = (Js.Resolved (Some budgets), db)
  /\ (exists rows,
       Expenses.getBills userId circleId db = (Js.Resolved (Some rows), db))
  /\ (exists rows,
       Expenses.getBudgets userId circleId db = (Js.Resolved (Some rows), db))
  /\ Expenses.getBillCategories_then (Db.QRows []) db = (Js.Resolved None, db).
Proof.
  split; [apply guard_ge_array|]. split; [apply guard_ge_array|].
  split; [apply getBills_then_array|]. split; [apply getBudgets_then_array|].
  split; [eexists; apply getBills_run|].
  split; [eexists; apply getBudgets_run|].
  reflexivity.
Qed.

(** On the store without rows. *)
Example getBills_empty_store :
  Expenses.getBills 10 1 db_empty = (Js.Resolved (Some []), db_empty)
  /\ Expenses.getBudgets 10 1 db_empty = (Js.Resolved (Some []), db_empty)
  /\ Expenses.getBillCategories db_empty = (Js.Resolved None, db_empty).
Proof. repeat split. Qed.

(** The [null] branch of the guard is taken for [null] and for a result
    that has no [length]. *)
Example getBills_then_not_array :
  Expenses.getBills_then Db.QNull db_empty = (Js.Resolved None, db_empty)
  /\ Expenses.getBills_then (Db.QOk (Db.mkOk 0 0)) db_empty
     = (Js.Resolved None, db_empty).
Proof. split; reflexivity. Qed.

(** C10: [getBillCategories] takes no argument and resolves with all the
    rows of the category table when there is at least one, and with
    [null], not with the empty array, when the table is empty. *)
Theorem getBillCategories_all_or_null (db : Db.Store) :
  Expenses.getBillCategories db
  = (Js.Resolved
       (match Db.tb_plugin_expenses_categories db with
        | [] => None
        | categories => Some categories
        end),
     db).
Proof.
  unfold Expenses.getBillCategories, Js.catch_, Js.then_, Db.query_rows.
  assert (Hsel : Db.select_categories db = Db.tb_plugin_expenses_categories db).
  { unfold Db.select_categories.
    induction (Db.tb_plugin_expenses_categories db) as [|[id name] l IH];
      [done|]. cbn. f_equal. apply IH. }
  rewrite Hsel.
  destruct (Db.tb_plugin_expenses_categories db) as [|EC l]; [reflexivity|].
  unfold Expenses.getBillCategories_then.
  replace (Db.not_null (Db.QRows (EC :: l))
           && Js.gt (Db.length_of (Db.QRows (EC :: l))) 0) with true.
  - by rewrite spread_fmap.
  - symmetry. cbn [Db.not_null Db.length_of Js.gt andb].
    apply Z.ltb_lt. cbn [length]. lia.
Qed.

Example getBillCategories_sample :
  (Expenses.getBillCategories db0).1
  = Js.Resolved (Some [Category.mk 1 "food"; Category.mk 2 "rent"]).
Proof. reflexivity. Qed.

(* ===================================================================== *)
(** ** [parseInt], by example *)
(* ===================================================================== *)

Example parseInt_42 : Js.parseInt (Js.VNumber 42) = Js.Num 42.
Proof. reflexivity. Qed.

Example parseInt_neg : Js.parseInt (Js.VNumber (-7)) = Js.Num (-7).
Proof. reflexivity. Qed.

Example parseInt_undefined : Js.parseInt Js.VUndefined = Js.NaN.
Proof. reflexivity. Qed.

Example parseInt_string_mixed : Js.parseInt_string "  +12px" = Js.Num 12.
Proof. reflexivity. Qed.

Example parseInt_string_hex : Js.parseInt_string "0x1F" = Js.Num 31.
Proof. reflexivity. Qed.

(* ===================================================================== *)
(** ** The password pattern *)
(* ===================================================================== *)

Section Password.
Import RegExp UserRoutes.

Lemma nonempty_app {A} (l1 l2 : list A) :
  nonempty (l1 ++ l2) = nonempty l1 || nonempty l2.
Proof. by destruct l1, l2. Qed.

Lemma LineTerminator_space (a : ascii) : LineTerminator a = true -> space a = true.
Proof.
  unfold LineTerminator, space. intros H.
  apply orb_true_iff in H as [H|H]; apply N.eqb_eq in H; by rewrite H.
Qed.

(** [(?=.*c)]: [.*] stops anywhere on the line, [c] is the next
    character. *)
Lemma ends_dot_star_class (c : ascii -> bool) (fuel : nat) (b : option ascii)
    (s : string) :
  (String.length s <= fuel)%nat ->
  nonempty (star (ends (Class dot)) fuel (mkPos b s) ≫= ends (Class c))
  = reach c s.
Proof.
  revert b s. induction fuel as [|fuel IH]; intros b s Hlen.
  - destruct s; [reflexivity|cbn in Hlen; lia].
  - destruct s as [|a s]; [reflexivity|].
    cbn [star ends rest reach]. destruct (dot a) eqn:Hdot.
    + cbn [mbind list_bind rest String.length].
      rewrite (proj2 (Nat.ltb_lt _ _)) by lia.
      rewrite !app_nil_r, bind_app, nonempty_app, IH by (cbn in Hlen; lia).
      cbn. rewrite app_nil_r. by destruct (c a), (reach c s).
    + cbn. rewrite app_nil_r, orb_false_r. by destruct (c a).
Qed.

Lemma ends_class_cons (c : ascii -> bool) (b : option ascii) (a : ascii)
    (s : string) :
  ends (Class c) (mkPos b (String a s))
  = if c a then [mkPos (Some a) s] else [].
Proof. reflexivity. Qed.

Lemma ends_eol_line (b : option ascii) (s : string) :
  nonempty (ends Eol (mkPos b s)) = (line_length s =? 0)%nat.
Proof.
  destruct s as [|a s]; [reflexivity|]. cbn. unfold dot.
  by destruct (LineTerminator a).
Qed.

(** [.{min,max}$]: the line is [min] to [max] characters long. *)
Lemma ends_repeat_dot_eol (max min : nat) (b : option ascii) (s : string) :
  nonempty (repeat (ends (Class dot)) max min (mkPos b s) ≫= ends Eol)
  = (min <=? line_length s)%nat && (line_length s <=? max)%nat.
Proof.
  revert min b s. induction max as [|max IH]; intros min b s.
  - cbn [repeat]. destruct min as [|min]; cbn [Nat.eqb].
    + rewrite bind_singleton, ends_eol_line.
      by destruct (line_length s).
    + cbn [mbind list_bind nonempty].
      destruct (line_length s); cbn; by rewrite ?andb_false_r.
  - cbn [repeat]. rewrite bind_app, nonempty_app.
    assert (Hhere :
      nonempty ((if (min =? 0)%nat then [mkPos b s] else []) ≫= ends Eol)
      = (min =? 0)%nat && (line_length s =? 0)%nat).
    { destruct min; cbn [Nat.eqb andb]; [|reflexivity].
      by rewrite bind_singleton, ends_eol_line. }
    rewrite Hhere. clear Hhere.
    destruct s as [|a s].
    + by destruct min.
    + rewrite ends_class_cons. cbn [line_length].
      destruct (dot a) eqn:Hdot.
      * rewrite bind_singleton, IH. cbn [Nat.eqb].
        rewrite andb_false_r, orb_false_r. by destruct min.
      * by destruct min.
Qed.

Lemma ends_lookahead (r : Pattern) (p : Pos) :
  ends (LookAhead r) p = if nonempty (ends r p) then [p] else [].
Proof. cbn. by destruct (ends r p). Qed.

Lemma ends_neg_lookahead (r : Pattern) (p : Pos) :
  ends (NegLookAhead r) p = if nonempty (ends r p) then [] else [p].
Proof. cbn. by destruct (ends r p). Qed.

Lemma ends_bol (p : Pos) :
  ends Bol p = if at_line_start (before p) then [p] else [].
Proof. cbn. by destruct (before p). Qed.

(** A test that consumes nothing, in front of the rest of the pattern. *)
Lemma ends_seq_test (r1 r2 : Pattern) (p : Pos) (t : bool) :
  ends r1 p = (if t then [p] else []) ->
  ends (Seq r1 r2) p = if t then ends r2 p else [].
Proof.
  intros H. cbn [ends]. rewrite H. destruct t; [|reflexivity].
  cbn. apply app_nil_r.
Qed.

Lemma ends_dot_star_class_reach (c : ascii -> bool) (b : option ascii)
    (s : string) :
  nonempty (ends (Seq (Star (Class dot)) (Class c)) (mkPos b s)) = reach c s.
Proof. by apply (ends_dot_star_class c (String.length s) b s). Qed.

(** The pattern matches at a position exactly when the position starts a
    line that is 6 to 13 long, on which a digit, a lower case and an upper
    case letter can be reached and no white space, the line terminator
    included. *)
Lemma password_pattern_at (b : option ascii) (s : string) :
  nonempty (ends password_pattern (mkPos b s))
  = at_line_start b
    && reach digit s && reach lower s && reach upper s
    && negb (reach space s)
    && ((6 <=? line_length s)%nat && (line_length s <=? 13)%nat).
Proof.
  unfold password_pattern.
  rewrite (ends_seq_test _ _ _ _ (ends_bol _)). cbn [before].
  destruct (at_line_start b); [|reflexivity]. cbn [andb].
  rewrite (ends_seq_test _ _ _ _ (ends_lookahead _ _)).
  rewrite ends_dot_star_class_reach.
  destruct (reach digit s); [|reflexivity]. cbn [andb].
  rewrite (ends_seq_test _ _ _ _ (ends_lookahead _ _)).
  rewrite ends_dot_star_class_reach.
  destruct (reach lower s); [|reflexivity]. cbn [andb].
  rewrite (ends_seq_test _ _ _ _ (ends_lookahead _ _)).
  rewrite ends_dot_star_class_reach.
  destruct (reach upper s); [|reflexivity]. cbn [andb].
  rewrite (ends_seq_test _ _ _ (negb (reach space s))).
  2:{ rewrite ends_neg_lookahead, ends_dot_star_class_reach.
      by destruct (reach space s). }
  destruct (reach space s); [reflexivity|]. cbn [negb andb].
  apply (ends_repeat_dot_eol 13 6 b s).
Qed.

(** On a string without line terminators the first line is the string. *)
Lemma reach_any (c : ascii -> bool) (s : string) :
  any LineTerminator s = false -> reach c s = any c s.
Proof.
  induction s as [|a s IH]; [done|]. cbn. intros H.
  apply orb_false_iff in H as [Ha Hs]. unfold dot. rewrite Ha, IH by done.
  reflexivity.
Qed.

Lemma line_length_length (s : string) :
  any LineTerminator s = false -> line_length s = String.length s.
Proof.
  induction s as [|a s IH]; [done|]. cbn. intros H.
  apply orb_false_iff in H as [Ha Hs]. unfold dot. rewrite Ha, IH by done.
  reflexivity.
Qed.

(** A line terminator ends the first line and is white space. *)
Lemma reach_space_terminator (s : string) :
  any LineTerminator s = true -> reach space s = true.
Proof.
  induction s as [|a s IH]; [done|]. cbn. intros H.
  destruct (LineTerminator a) eqn:Ha.
  - by rewrite (LineTerminator_space a Ha).
  - unfold dot. rewrite Ha, IH by done. by destruct (space a).
Qed.

Lemma any_space_terminator (s : string) :
  any LineTerminator s = true -> any space s = true.
Proof.
  induction s as [|a s IH]; [done|]. cbn. intros H.
  destruct (LineTerminator a) eqn:Ha.
  - by rewrite (LineTerminator_space a Ha).
  - rewrite IH by done. by destruct (space a).
Qed.

(** Where the pattern matches: at the start of a line that is the last
    one and keeps to the policy. *)
Lemma password_pattern_at_policy (b : option ascii) (s : string) :
  nonempty (ends password_pattern (mkPos b s))
  = at_line_start b && negb (any LineTerminator s) && password_policy s.
Proof.
  rewrite password_pattern_at. unfold password_policy.
  destruct (any LineTerminator s) eqn:Hlt.
  - rewrite reach_space_terminator by done.
    cbn. by rewrite !andb_false_r.
  - rewrite !reach_any, line_length_length by done.
    destruct (at_line_start b), (any digit s), (any lower s), (any upper s),
      (any space s), (6 <=? String.length s)%nat, (String.length s <=? 13)%nat;
      reflexivity.
Qed.

Lemma last_line_no_terminator (s : string) :
  any LineTerminator s = false -> last_line s = s.
Proof. destruct s as [|a s]; [done|]. cbn [last_line]. by intros ->. Qed.

Lemma last_line_cons (a : ascii) (s : string) :
  any LineTerminator (String a s) = true ->
  last_line (String a s) = last_line s.
Proof. cbn [last_line]. by intros ->. Qed.

Lemma any_app (c : ascii -> bool) (s1 s2 : string) :
  any c (s1 +:+ s2) = any c s1 || any c s2.
Proof.
  induction s1 as [|a s1 IH]; [done|].
  change (String a s1 +:+ s2) with (String a (s1 +:+ s2)).
  cbn [any]. rewrite IH. apply orb_assoc.
Qed.

Lemma search_password (b : option ascii) (s : string) :
  search password_pattern b s
  = if any LineTerminator s then password_policy (last_line s)
    else at_line_start b && password_policy s.
Proof.
  revert b. induction s as [|a s IH]; intros b.
  - cbn [search]. pose proof (password_pattern_at_policy b "") as H.
    destruct (ends password_pattern (mkPos b "")); cbn in H |- *.
    + by destruct (at_line_start b).
    + by destruct (at_line_start b).
  - cbn [search]. pose proof (password_pattern_at_policy b (String a s)) as H.
    rewrite IH.
    destruct (ends password_pattern (mkPos b (String a s))) as [|q l];
      cbn [nonempty] in H.
    + cbn [last_line]. cbn [any] in H |- *.
      destruct (LineTerminator a) eqn:Ha; cbn [orb] in H |- *.
      * destruct (any LineTerminator s) eqn:Hs; [done|].
        cbn [at_line_start]. by rewrite Ha, last_line_no_terminator.
      * destruct (any LineTerminator s) eqn:Hs; [done|].
        cbn [at_line_start]. rewrite Ha. cbn [andb negb] in H |- *.
        by rewrite andb_true_r in H.
    + symmetry in H. apply andb_true_iff in H as [H Hp].
      apply andb_true_iff in H as [Hb Hlt]. apply negb_true_iff in Hlt.
      rewrite Hlt, Hb. done.
Qed.

End Password.

(* ===================================================================== *)
(** ** The password validator of [POST /user/create] *)
(* ===================================================================== *)

(** The pattern has a match in a value exactly when the last line of the
    value keeps to the policy. *)
Lemma has_match_password (value : string) :
  RegExp.has_match UserRoutes.password_pattern value
  = password_policy (last_line value).
Proof.
  unfold RegExp.has_match. rewrite search_password.
  destruct (any RegExp.LineTerminator value) eqn:Hlt; [done|].
  by rewrite last_line_no_terminator.
Qed.

(** X1: the validator looks at the last line of the value only.  It
    returns [true] when the part after the last line terminator (the
    whole value when it has none) keeps to the policy, and rejects with
    the message of the policy otherwise. *)
Theorem password_custom_last_line (value : string) :
  UserRoutes.password_custom value
  = if password_policy (last_line value) then Js.Resolved true
    else Js.Rejected (Js.mkError UserRoutes.password_message).
Proof.
  unfold UserRoutes.password_custom.
  rewrite has_match_password.
  by destruct (password_policy (last_line value)).
Qed.

(** X2: on a value without line terminators the validator is the policy
    of its message: it returns [true] exactly when the value has 6 to 13
    characters, among them a digit, a lower case letter and an upper case
    letter, and no white space. *)
Theorem password_custom_single_line (value : string) :
  any RegExp.LineTerminator value = false ->
  (UserRoutes.password_custom value = Js.Resolved true
   <-> (6 <= String.length value <= 13)%nat
       /\ any RegExp.digit value = true
       /\ any RegExp.lower value = true
       /\ any RegExp.upper value = true
       /\ any RegExp.space value = false)
  /\ (UserRoutes.password_custom value = Js.Resolved true
      \/ UserRoutes.password_custom value
         = Js.Rejected (Js.mkError UserRoutes.password_message)).
Proof.
  intros Hlt. unfold UserRoutes.password_custom.
  rewrite has_match_password, last_line_no_terminator by done.
  split; [|destruct (password_policy value); auto].
  unfold password_policy. split.
  - intros H.
    destruct (_ && _) eqn:Hp in H; [|discriminate].
    repeat (apply andb_true_iff in Hp as [Hp ?]).
    apply Nat.leb_le in Hp. rewrite Nat.leb_le, negb_true_iff in *. auto.
  - intros ([H6 H13] & Hd & Hl & Hu & Hs).
    apply Nat.leb_le in H6, H13. by rewrite H6, H13, Hd, Hl, Hu, Hs.
Qed.

Lemma password_custom_single_line_witness :
  any RegExp.LineTerminator "Secret12" = false
  /\ UserRoutes.password_custom "Secret12" = Js.Resolved true.
Proof.
  split; [reflexivity|].
  apply (proj1 (password_custom_single_line "Secret12" eq_refl)).
  repeat split; cbn; lia.
Defined.

(** X3: whatever stands before a line feed is not checked.  A value made
    of any text, a line feed and a last line is accepted exactly when the
    last line alone is: with a good last line the value is accepted even
    if the text before has white space or makes the value longer than
    13. *)
Theorem password_custom_after_line_feed (text line : string) :
  any RegExp.LineTerminator line = false ->
  UserRoutes.password_custom (text +:+ String "010" line)
  = UserRoutes.password_custom line.
Proof.
  intros Hlt. unfold UserRoutes.password_custom.
  rewrite !has_match_password.
  rewrite (last_line_no_terminator line) by done.
  replace (last_line (text +:+ String "010" line)) with line; [done|].
  induction text as [|a text IH].
  - change ("" +:+ String "010" line) with (String "010" line).
    rewrite last_line_cons by reflexivity.
    by rewrite last_line_no_terminator.
  - change (String a text +:+ String "010" line)
      with (String a (text +:+ String "010" line)).
    rewrite last_line_cons; [done|].
    cbn [any]. rewrite any_app. cbn [any].
    change (RegExp.LineTerminator "010") with true.
    by rewrite !orb_true_r.
Qed.

Lemma password_custom_after_line_feed_witness :
  any RegExp.LineTerminator "Secret12" = false
  /\ UserRoutes.password_custom
       ("a password of many words" +:+ String "010" "Secret12")
     = Js.Resolved true.
Proof.
  split; [reflexivity|].
  rewrite (password_custom_after_line_feed
             "a password of many words" "Secret12" eq_refl).
  reflexivity.
Defined.

(** A value that ends with a line terminator is rejected whatever it
    holds. *)
Example password_custom_trailing_line_feed :
  UserRoutes.password_custom (String.append "Secret12" (String "010" ""))
  = Js.Rejected (Js.mkError UserRoutes.password_message).
Proof. reflexivity. Qed.

(* ===================================================================== *)
(** ** The handler of [POST /user/create] *)
(* ===================================================================== *)

(** X4: what [POST /user/create] answers.  With validation errors it
    answers 422 with the messages of the errors, in their order, and does
    not call [addNewUser].  Without, it calls [addNewUser] once and
    answers 200 with the external id when the service resolves with one;
    500 with the one message [Internal Server Error] when it resolves
    with [null]; 500 with the message of the error when it rejects with a
    value that has one ([Internal Server Error] in place of the message
    [undefined]), the message being carried as a string, not as an array;
    and 500 with [undefined] for errors when the reason has no message.
    When the service rejects with [null] or [undefined] the [.catch]
    callback throws on reading the message: the handler ends rejected and
    sends no answer. *)
Theorem user_create_answers {S E : Type}
    (addNewUser : string -> string -> string -> string
                  -> UserRoutes.Task S (option E))
    (errors : list UserRoutes.ValidationError) (body : UserRoutes.Body) (s : S) :
  UserRoutes.create addNewUser errors body s
  = match errors with
    | _ :: _ =>
        (UserRoutes.Fulfilled
           (UserRoutes.json 422 422
              (UserRoutes.ErrorsArray (UserRoutes.msg <$> errors)) None), s)
    | [] =>
        match addNewUser (UserRoutes.email body) (UserRoutes.password body)
                (UserRoutes.firstName body) (UserRoutes.lastName body) s with
        | (UserRoutes.Fulfilled (Some extId), s1) =>
            (UserRoutes.Fulfilled
               (UserRoutes.json 200 200 UserRoutes.ErrorsNull
                  (Some (UserRoutes.mkCreateData extId))), s1)
        | (UserRoutes.Fulfilled None, s1) =>
            (UserRoutes.Fulfilled
               (UserRoutes.json 500 500
                  (UserRoutes.ErrorsString "Internal Server Error") None), s1)
        | (UserRoutes.RejectedWith (UserRoutes.ReasonValue (Some m)), s1) =>
            (UserRoutes.Fulfilled
               (UserRoutes.json 500 500
                  (UserRoutes.ErrorsString
                     (if decide (m = "undefined")
                      then "Internal Server Error" else m))
                  None), s1)
        | (UserRoutes.RejectedWith (UserRoutes.ReasonValue None), s1) =>
            (UserRoutes.Fulfilled
               (UserRoutes.json 500 500 UserRoutes.ErrorsUndefined None), s1)
        | (UserRoutes.RejectedWith UserRoutes.ReasonNull, s1) =>
            (UserRoutes.RejectedWith
               (UserRoutes.TypeError_reading_message "null"), s1)
        | (UserRoutes.RejectedWith UserRoutes.ReasonUndefined, s1) =>
            (UserRoutes.RejectedWith
               (UserRoutes.TypeError_reading_message "undefined"), s1)
        end
    end.
Proof.
  destruct errors as [|error errors]; [|reflexivity].
  unfold UserRoutes.create, UserRoutes.task_catch, UserRoutes.task_then.
  cbn [negb].
  destruct (addNewUser _ _ _ _ s) as [[[extId|]|[| |[m|]]] s1]; try reflexivity.
  unfold UserRoutes.create_catch, UserRoutes.task_resolve. cbn.
  destruct (decide (m = "undefined")) as [->|Hne]; [reflexivity|].
  by rewrite (proj2 (String.eqb_neq _ _) Hne).
Qed.

(** A request with a validation error is answered without a call of the
    service. *)
Example user_create_validation_error :
  UserRoutes.create list_addNewUser
    [UserRoutes.mkValidationError "First name cannot be empty."] body_ann []
  = (UserRoutes.Fulfilled
       (UserRoutes.json 422 422
          (UserRoutes.ErrorsArray ["First name cannot be empty."]) None),
     []).
Proof. reflexivity. Qed.

(** A second registration with the same e-mail, over the list service. *)
Example user_create_twice :
  UserRoutes.create list_addNewUser [] body_ann []
  = (UserRoutes.Fulfilled
       (UserRoutes.json 200 200 UserRoutes.ErrorsNull
          (Some (UserRoutes.mkCreateData "ann@example.org"))),
     ["ann@example.org"])
  /\ UserRoutes.create list_addNewUser [] body_ann ["ann@example.org"]
     = (UserRoutes.Fulfilled
          (UserRoutes.json 500 500
             (UserRoutes.ErrorsString "Internal Server Error") None),
        ["ann@example.org"]).
Proof. split; reflexivity. Qed.

(** A service that rejects with [undefined]: no answer is sent. *)
Example user_create_unanswered :
  UserRoutes.create failing_addNewUser [] body_ann []
  = (UserRoutes.RejectedWith
       (UserRoutes.ReasonValue
          (Some "Cannot read properties of undefined (reading 'message')")),
     []).
Proof. reflexivity. Qed.

(* ===================================================================== *)
(** ** The circle handlers, outcome by outcome *)
(* ===================================================================== *)

(** X5: [POST /circle/create] answers 200 only after [addNewCircle] has
    resolved for a count below 2: a 200 answer carries the id that
    [addNewCircle] resolved with, and the state is the one it left. *)
Theorem create_200_only_after_insert {S : Type}
    (getNumberCirclesByOwner : Z -> Js.Async S Z)
    (addNewCircle : Z -> string -> string -> Js.Async S Z)
    (req : CircleRoutes.Request) (s s2 : S)
    (body : Transport.t CircleRoutes.CreateData) :
  CircleRoutes.create getNumberCirclesByOwner addNewCircle req s
    = (Js.Resolved (CircleRoutes.json 200 body), s2) ->
  exists n s1 circleId,
    getNumberCirclesByOwner (CircleRoutes.id (CircleRoutes.user req)) s
      = (Js.Resolved n, s1)
    /\ n < 2
    /\ addNewCircle (CircleRoutes.id (CircleRoutes.user req))
         (CircleRoutes.email (CircleRoutes.user req)) (CircleRoutes.name req) s1
       = (Js.Resolved circleId, s2)
    /\ body = Transport.mk 200 None
                (Transport.Payload (CircleRoutes.mkCreateData circleId)).
Proof.
  unfold CircleRoutes.create, Js.catch_, Js.then_.
  destruct (getNumberCirclesByOwner _ s) as [[n|e] s1] eqn:Hn.
  - destruct (Z.lt_ge_cases n 2) as [Hlt|Hge].
    + rewrite quota_gate_allows by done.
      destruct (addNewCircle _ _ _ s1) as [[circleId|e] s2'] eqn:Ha.
      * intros [= <- <-]. by exists n, s1, circleId.
      * unfold CircleRoutes.create_catch, Js.resolve.
        destruct (String.eqb _ _); intros [=].
    + rewrite quota_gate_denies by done.
      unfold CircleRoutes.create_catch, Js.resolve.
      destruct (String.eqb _ _); intros [=].
  - unfold CircleRoutes.create_catch, Js.resolve.
    destruct (String.eqb _ _); intros [=].
Qed.

Lemma create_200_only_after_insert_witness :
  CircleRoutes.create counter_getNumberCirclesByOwner counter_addNewCircle
    req_owner 1
  = (Js.Resolved
       (CircleRoutes.json 200
          (Transport.mk 200 None
             (Transport.Payload (CircleRoutes.mkCreateData 2)))), 2)
  /\ exists n s1 circleId,
       counter_getNumberCirclesByOwner 10 1 = (Js.Resolved n, s1)
       /\ n < 2
       /\ counter_addNewCircle 10 "o@example.org" "Team C" s1
          = (Js.Resolved circleId, 2)
       /\ Transport.mk 200 None (Transport.Payload (CircleRoutes.mkCreateData 2))
          = Transport.mk 200 None
              (Transport.Payload (CircleRoutes.mkCreateData circleId)).
Proof.
  split; [reflexivity|].
  exact (create_200_only_after_insert counter_getNumberCirclesByOwner
           counter_addNewCircle req_owner 1 2 _ eq_refl).
Defined.



(** [GET /circle/byUser] always answers, and by the outcome of the
    service alone: the 404 helper on [null], the generic 500 helper with
    the error on a rejection, and otherwise a 200 envelope around the very
    list the service resolved with, the empty list included. *)
Theorem byUser_answers {S C : Type}
    (GetCircleByUser : Z -> Js.Async S (option (list C)))
    (req : CircleRoutes.Request) (s : S) :
  CircleRoutes.byUser GetCircleByUser req s
  = match GetCircleByUser (CircleRoutes.id (CircleRoutes.user req)) s with
    | (Js.Resolved None, s1) => (Js.Resolved CircleRoutes.formatError404Json, s1)
    | (Js.Resolved (Some result), s1) =>
        (Js.Resolved
           (CircleRoutes.json 200
              (Transport.mk 200 None
                 (Transport.Payload (CircleRoutes.mkByUserData result)))), s1)
    | (Js.Rejected e, s1) => (Js.Resolved (CircleRoutes.formatError500Json e), s1)
    end.
Proof.
  unfold CircleRoutes.byUser, Js.catch_, Js.then_.
  by destruct (GetCircleByUser _ s) as [[[result|]|e] s1].
Qed.

(* ===================================================================== *)
(** ** Primary keys *)
(* ===================================================================== *)

Section Keys.
Context {A : Type} (key : A -> Z).

(** A key that is nobody's selects nothing. *)
Lemma filter_key_fresh (Q : A -> Prop) `{!forall x, Decision (Q x)}
    (l : list A) (k : Z) :
  k ∉ key <$> l -> filter (fun x => key x = k /\ Q x) l = [].
Proof.
  intros Hk. apply filter_none, Forall_forall. intros x Hx [Hkx _].
  apply Hk. rewrite <- Hkx. by apply list_elem_of_fmap_2.
Qed.

(** Pairwise different keys: a key selects at most one row. *)
Lemma filter_key_unique (Q : A -> Prop) `{!forall x, Decision (Q x)}
    (l : list A) (k : Z) :
  NoDup (key <$> l) ->
  (length (filter (fun x => key x = k /\ Q x) l) <= 1)%nat.
Proof.
  induction l as [|x l IH]; [cbn; lia|].
  rewrite fmap_cons, NoDup_cons. intros [Hx Hl].
  destruct (decide (key x = k /\ Q x)) as [[Hk HQ]|Hno].
  - rewrite filter_cons_True by done.
    rewrite filter_key_fresh by (by rewrite <- Hk). cbn. lia.
  - rewrite filter_cons_False by done. by apply IH.
Qed.

Lemma NoDup_fmap_filter (P : A -> Prop) `{!forall x, Decision (P x)}
    (l : list A) :
  NoDup (key <$> l) -> NoDup (key <$> filter P l).
Proof.
  induction l as [|x l IH]; [done|].
  rewrite fmap_cons, NoDup_cons. intros [Hx Hl].
  destruct (decide (P x)).
  - rewrite filter_cons_True by done. rewrite fmap_cons, NoDup_cons.
    split; [|by apply IH].
    intros Hin. apply Hx.
    apply list_elem_of_fmap in Hin as (y & -> & Hy).
    apply list_elem_of_filter in Hy as [_ Hy]. by apply list_elem_of_fmap_2.
  - rewrite filter_cons_False by done. by apply IH.
Qed.

Lemma Forall_filter_keep (P Q : A -> Prop) `{!forall x, Decision (P x)}
    (l : list A) :
  Forall Q l -> Forall Q (filter P l).
Proof.
  rewrite !Forall_forall. intros HQ x Hx.
  apply list_elem_of_filter in Hx as [_ Hx]. by apply HQ.
Qed.

(** A key above all the keys is new. *)
Lemma NoDup_fmap_snoc (l : list A) (x : A) :
  NoDup (key <$> l) -> Forall (fun y => key y < key x) l ->
  NoDup (key <$> (l ++ [x])).
Proof.
  intros Hl Hlt. rewrite fmap_app. apply NoDup_app. split; [done|].
  split; [|apply NoDup_singleton].
  intros k Hk Hx. apply list_elem_of_fmap in Hk as (y & -> & Hy).
  apply list_elem_of_singleton in Hx.
  rewrite Forall_forall in Hlt. specialize (Hlt y Hy). lia.
Qed.

End Keys.

(** X7: the four writing methods keep the primary keys: if the ids of
    each table are pairwise different and below the AUTO_INCREMENT
    counter of the table, they still are after [addBill], [addBudget],
    [removeBill] or [removeBudget]. *)
Theorem writes_keep_keys (db : Db.Store) (userId circleId id : Z)
    (name : string) (amount categoryId date1 date2 : Z) :
  keys_ok db ->
  keys_ok (Expenses.addBill circleId userId name amount categoryId date1 db).2
  /\ keys_ok (Expenses.addBudget circleId userId name amount date1 date2 db).2
  /\ keys_ok (Expenses.removeBill userId id circleId db).2
  /\ keys_ok (Expenses.removeBudget userId id circleId db).2.
Proof.
  intros (Hb & Hbi & Hg & Hgi).
  split.
  { destruct (decide (is_category db categoryId)) as [Hk|Hk].
    - rewrite addBill_accepted by done.
      unfold keys_ok. cbn. repeat split; try done.
      + apply NoDup_fmap_snoc; [done|]. eapply Forall_impl; [exact Hbi|]. done.
      + apply Forall_app. split.
        * eapply Forall_impl; [exact Hbi|]. cbn. lia.
        * apply Forall_singleton. cbn. lia.
    - rewrite addBill_refused by done. done. }
  rewrite addBudget_run, removeBill_run, removeBudget_run.
  unfold keys_ok. cbn. repeat split; try done.
  - apply NoDup_fmap_snoc; [done|]. eapply Forall_impl; [exact Hgi|]. done.
  - apply Forall_app. split.
    + eapply Forall_impl; [exact Hgi|]. cbn. lia.
    + apply Forall_singleton. cbn. lia.
  - by apply NoDup_fmap_filter.
  - by apply Forall_filter_keep.
  - by apply NoDup_fmap_filter.
  - by apply Forall_filter_keep.
Qed.

Lemma writes_keep_keys_witness :
  keys_ok db0
  /\ keys_ok (Expenses.addBill 1 10 "gift" 20 1 500 db0).2
  /\ keys_ok (Expenses.addBudget 1 10 "gift" 20 500 600 db0).2
  /\ keys_ok (Expenses.removeBill 10 2 1 db0).2
  /\ keys_ok (Expenses.removeBudget 10 2 1 db0).2.
Proof.
  assert (H : keys_ok db0).
  { apply (bool_decide_unpack _). vm_compute. exact I. }
  split; [exact H|].
  exact (writes_keep_keys db0 10 1 2 "gift" 20 1 500 600 H).
Defined.

(** X8: with pairwise different ids, [removeBill] and [removeBudget]
    resolve with 0 or with 1, and with 1 exactly when a row with the given
    id and circle is in the table. *)
Theorem remove_count_zero_or_one (db : Db.Store) (userId id circleId : Z) :
  keys_ok db ->
  (exists n db1,
     Expenses.removeBill userId id circleId db = (Js.Resolved (Js.Num n), db1)
     /\ (n = 0 \/ n = 1)
     /\ (n = 1 <-> exists PE, PE ∈ Db.tb_plugin_expenses db
                     /\ Bill.id PE = id /\ Bill.circleId PE = circleId))
  /\ (exists n db1,
       Expenses.removeBudget userId id circleId db
       = (Js.Resolved (Js.Num n), db1)
       /\ (n = 0 \/ n = 1)
       /\ (n = 1 <-> exists PEB, PEB ∈ Db.tb_plugin_expenses_budget db
                       /\ Budget.id PEB = id /\ Budget.circleId PEB = circleId)).
Proof.
  intros (Hb & _ & Hg & _). split.
  - rewrite removeBill_run. do 2 eexists. split; [reflexivity|]. cbn.
    pose proof (filter_key_unique Bill.id (fun PE => Bill.circleId PE = circleId)
                  (Db.tb_plugin_expenses db) id Hb) as Hle.
    destruct (filter _ (Db.tb_plugin_expenses db)) as [|PE l] eqn:Hf.
    + split; [auto|]. split; [done|].
      intros (PE & HPE & Hid & Hc).
      assert (PE ∈ @nil Bill.t) as Hin.
      { rewrite <- Hf. by apply list_elem_of_filter. }
      by apply elem_of_nil in Hin.
    + destruct l; [|cbn in Hle; lia]. split; [auto|]. split; [|done].
      intros _. exists PE.
      assert (PE ∈ [PE]) as Hin by apply list_elem_of_here.
      rewrite <- Hf in Hin. apply list_elem_of_filter in Hin. tauto.
  - rewrite removeBudget_run. do 2 eexists. split; [reflexivity|]. cbn.
    pose proof (filter_key_unique Budget.id
                  (fun PEB => Budget.circleId PEB = circleId)
                  (Db.tb_plugin_expenses_budget db) id Hg) as Hle.
    destruct (filter _ (Db.tb_plugin_expenses_budget db)) as [|PEB l] eqn:Hf.
    + split; [auto|]. split; [done|].
      intros (PEB & HPEB & Hid & Hc).
      assert (PEB ∈ @nil Budget.t) as Hin.
      { rewrite <- Hf. by apply list_elem_of_filter. }
      by apply elem_of_nil in Hin.
    + destruct l; [|cbn in Hle; lia]. split; [auto|]. split; [|done].
      intros _. exists PEB.
      assert (PEB ∈ [PEB]) as Hin by apply list_elem_of_here.
      rewrite <- Hf in Hin. apply list_elem_of_filter in Hin. tauto.
Qed.

Lemma remove_count_zero_or_one_witness :
  keys_ok db0
  /\ (exists n db1,
        Expenses.removeBill 10 2 1 db0 = (Js.Resolved (Js.Num n), db1)
        /\ (n = 0 \/ n = 1)
        /\ (n = 1 <-> exists PE, PE ∈ Db.tb_plugin_expenses db0
                        /\ Bill.id PE = 2 /\ Bill.circleId PE = 1)).
Proof.
  assert (H : keys_ok db0).
  { apply (bool_decide_unpack _). vm_compute. exact I. }
  split; [exact H|].
  exact (proj1 (remove_count_zero_or_one db0 10 2 1 H)).
Defined.

(** Without the primary key the count is the number of rows that carry
    the id in the circle. *)
Example removeBill_duplicate_id :
  (Expenses.removeBill 10 7 1
     (Db.mkStore [] [] [] [Bill.mk 7 1 10 "a" 1 1 1; Bill.mk 7 1 10 "b" 2 1 2]
                 8 [] 1)).1
  = Js.Resolved (Js.Num 2).
Proof. reflexivity. Qed.

(* ===================================================================== *)
(** ** Adding and removing, composed *)
(* ===================================================================== *)

(** X9: removing what was just added undoes it.  With the primary keys in
    place, [addBill] (which resolves when the category of the bill is in
    the category table) followed by [removeBill] of the id it resolved
    with, in the same circle and by any caller, resolves with 1 and leaves
    the bill table as it was before the two calls; likewise for
    budgets. *)
Theorem add_then_remove_restores (db : Db.Store) (circleId userId caller : Z)
    (name : string) (amount categoryId date1 date2 : Z) :
  keys_ok db ->
  (is_category db categoryId ->
   exists id db1 db2,
     Expenses.addBill circleId userId name amount categoryId date1 db
       = (Js.Resolved (Js.Num id), db1)
     /\ Expenses.removeBill caller id circleId db1 = (Js.Resolved (Js.Num 1), db2)
     /\ Db.tb_plugin_expenses db2 = Db.tb_plugin_expenses db
     /\ Db.tb_plugin_expenses_budget db2 = Db.tb_plugin_expenses_budget db)
  /\ (exists id db1 db2,
       Expenses.addBudget circleId userId name amount date1 date2 db
         = (Js.Resolved (Js.Num id), db1)
       /\ Expenses.removeBudget caller id circleId db1
          = (Js.Resolved (Js.Num 1), db2)
       /\ Db.tb_plugin_expenses_budget db2 = Db.tb_plugin_expenses_budget db
       /\ Db.tb_plugin_expenses db2 = Db.tb_plugin_expenses db).
Proof.
  intros (_ & Hbi & _ & Hgi). split.
  - intros Hk. do 3 eexists. split; [by apply addBill_accepted|].
    rewrite removeBill_run. cbn.
    rewrite !filter_app, filter_cons_True, filter_cons_False, !filter_nil
      by (cbn; naive_solver).
    rewrite filter_none, filter_all.
    + split; [reflexivity|]. by rewrite app_nil_r.
    + eapply Forall_impl; [exact Hbi|]. cbn. lia.
    + eapply Forall_impl; [exact Hbi|]. cbn. lia.
  - do 3 eexists. split; [apply addBudget_run|].
    rewrite removeBudget_run. cbn.
    rewrite !filter_app, filter_cons_True, filter_cons_False, !filter_nil
      by (cbn; naive_solver).
    rewrite filter_none, filter_all.
    + split; [reflexivity|]. by rewrite app_nil_r.
    + eapply Forall_impl; [exact Hgi|]. cbn. lia.
    + eapply Forall_impl; [exact Hgi|]. cbn. lia.
Qed.

Lemma add_then_remove_restores_witness :
  keys_ok db0
  /\ is_category db0 1
  /\ exists id db1 db2,
       Expenses.addBill 1 10 "gift" 20 1 500 db0 = (Js.Resolved (Js.Num id), db1)
       /\ Expenses.removeBill 12 id 1 db1 = (Js.Resolved (Js.Num 1), db2)
       /\ Db.tb_plugin_expenses db2 = Db.tb_plugin_expenses db0
       /\ Db.tb_plugin_expenses_budget db2 = Db.tb_plugin_expenses_budget db0.
Proof.
  assert (H : keys_ok db0).
  { apply (bool_decide_unpack _). vm_compute. exact I. }
  assert (Hk : is_category db0 1).
  { apply (bool_decide_unpack _). vm_compute. exact I. }
  split; [exact H|]. split; [exact Hk|].
  exact (proj1 (add_then_remove_restores db0 1 10 12 "gift" 20 1 500 600 H) Hk).
Defined.

(** X10: removing twice removes once.  After [removeBill] for an id and a
    circle, a second [removeBill] for the same id and circle, by any
    caller, resolves with 0 and leaves the store as the first left it;
    likewise for budgets. *)
Theorem remove_twice (db : Db.Store) (u1 u2 id circleId : Z) :
  Expenses.removeBill u2 id circleId (Expenses.removeBill u1 id circleId db).2
  = (Js.Resolved (Js.Num 0), (Expenses.removeBill u1 id circleId db).2)
  /\ Expenses.removeBudget u2 id circleId
       (Expenses.removeBudget u1 id circleId db).2
     = (Js.Resolved (Js.Num 0), (Expenses.removeBudget u1 id circleId db).2).
Proof.
  rewrite !removeBill_run, !removeBudget_run. cbn.
  split.
  - rewrite filter_none, filter_all; [done|..].
    + apply Forall_forall. intros PE HPE.
      by apply list_elem_of_filter in HPE as [? _].
    + apply Forall_forall. intros PE HPE.
      by apply list_elem_of_filter in HPE as [? _].
  - rewrite filter_none, filter_all; [done|..].
    + apply Forall_forall. intros PEB HPEB.
      by apply list_elem_of_filter in HPEB as [? _].
    + apply Forall_forall. intros PEB HPEB.
      by apply list_elem_of_filter in HPEB as [? _].
Qed.

(** X11: a removed bill is not listed any more.  After [removeBill] for an
    id and a circle, no row that [getBills] resolves with for that circle,
    for any user, carries the id; likewise for budgets. *)
Theorem removed_not_listed (db : Db.Store) (caller userId id circleId : Z) :
  (exists rows,
     Expenses.getBills userId circleId
       (Expenses.removeBill caller id circleId db).2
     = (Js.Resolved (Some rows), (Expenses.removeBill caller id circleId db).2)
     /\ Forall (fun row => BillRow.id row <> id) rows)
  /\ (exists rows,
       Expenses.getBudgets userId circleId
         (Expenses.removeBudget caller id circleId db).2
       = (Js.Resolved (Some rows),
          (Expenses.removeBudget caller id circleId db).2)
       /\ Forall (fun row => BudgetRow.id row <> id) rows).
Proof.
  split.
  - eexists. split; [apply getBills_run|].
    apply Forall_forall. intros row Hrow Hid.
    apply elem_of_select_bills in Hrow as (PE & CM & EC & H & Hu & Hc & ->).
    apply elem_of_bills_joined in H as (HPE & _ & _ & Hj & _).
    rewrite removeBill_run in HPE. cbn in HPE, Hid.
    apply list_elem_of_filter in HPE as [Hno _]. apply Hno.
    split; [done|congruence].
  - eexists. split; [apply getBudgets_run|].
    apply Forall_forall. intros row Hrow Hid.
    apply elem_of_select_budgets in Hrow as (PEB & CM & H & Hu & Hc & ->).
    apply elem_of_budgets_joined in H as (HPEB & _ & Hj).
    rewrite removeBudget_run in HPEB. cbn in HPEB, Hid.
    apply list_elem_of_filter in HPEB as [Hno _]. apply Hno.
    split; [done|congruence].
Qed.

(** X12: for a member of the circle, [addBudget] followed by [getBudgets]
    for the same user and circle lists the new budget, with the id
    [addBudget] resolved with and the values it was given, in a list
    sorted by [budgetStartDate], newest first.  No other table is joined,
    so nothing else is asked of the values. *)
Theorem addBudget_then_getBudgets_lists_budget
    (db : Db.Store) (userId circleId : Z) (budgetName : string)
    (budgetAmount budgetStartDate budgetEndDate : Z) :
  is_member db userId circleId ->
  exists id db1 rows,
    Expenses.addBudget circleId userId budgetName budgetAmount
                       budgetStartDate budgetEndDate db
      = (Js.Resolved (Js.Num id), db1)
    /\ Expenses.getBudgets userId circleId db1 = (Js.Resolved (Some rows), db1)
    /\ BudgetRow.mk id budgetName budgetAmount budgetStartDate budgetEndDate
       ∈ rows
    /\ StronglySorted (Db.desc BudgetRow.budgetStartDate) rows.
Proof.
  intros Hm. apply Exists_exists in Hm as (CM & HCM & Hu & Hc).
  do 3 eexists.
  split; [apply addBudget_run|].
  split; [apply getBudgets_run|].
  split; [|apply select_budgets_sorted].
  apply elem_of_select_budgets.
  exists (Budget.mk (Db.tb_plugin_expenses_budget_auto_increment db) circleId
                    userId budgetName budgetAmount budgetStartDate budgetEndDate),
         CM.
  repeat split; try done.
  apply elem_of_budgets_joined. cbn. repeat split; try done.
  apply elem_of_app. right. by apply list_elem_of_singleton.
Qed.

Lemma addBudget_then_getBudgets_lists_budget_witness :
  is_member db0 11 1
  /\ exists id db1 rows,
       Expenses.addBudget 1 11 "July" 300 181 210 db0
         = (Js.Resolved (Js.Num id), db1)
       /\ Expenses.getBudgets 11 1 db1 = (Js.Resolved (Some rows), db1)
       /\ BudgetRow.mk id "July" 300 181 210 ∈ rows
       /\ StronglySorted (Db.desc BudgetRow.budgetStartDate) rows.
Proof.
  assert (H : is_member db0 11 1).
  { apply (bool_decide_unpack _). vm_compute. exact I. }
  split; [exact H|].
  exact (addBudget_then_getBudgets_lists_budget db0 11 1 "July" 300 181 210 H).
Defined.

(* ===================================================================== *)
(** ** Writes to one circle and the lists of another *)
(* ===================================================================== *)

Section Frame.
Context {A B : Type} (W : B -> Prop) `{!forall y, Decision (W y)}.

(** Rows that contribute nothing to the kept part of a join can be
    dropped before the join. *)
Lemma filter_bind_drop (P : A -> Prop) `{!forall x, Decision (P x)}
    (F : A -> list B) (l : list A) :
  (forall x, x ∈ l -> ~ P x -> filter W (F x) = []) ->
  filter W (filter P l ≫= F) = filter W (l ≫= F).
Proof.
  induction l as [|x l IH]; intros Hdrop; [done|].
  assert (Hl : filter W (filter P l ≫= F) = filter W (l ≫= F)).
  { apply IH. intros y Hy. apply Hdrop. by right. }
  rewrite bind_cons, filter_app. destruct (decide (P x)) as [HP|HP].
  - rewrite filter_cons_True by done. by rewrite bind_cons, filter_app, Hl.
  - rewrite filter_cons_False by done.
    rewrite (Hdrop x) by (done || by left). by rewrite Hl.
Qed.

Lemma filter_bind_snoc (F : A -> list B) (l : list A) (x : A) :
  filter W (F x) = [] ->
  filter W ((l ++ [x]) ≫= F) = filter W (l ≫= F).
Proof.
  intros Hx. rewrite bind_app, filter_app, bind_singleton, Hx.
  apply app_nil_r.
Qed.

End Frame.

(** The rows a bill of one circle contributes to the join are not rows of
    a member of another circle. *)
Lemma bill_join_other_circle (members : list Member.t)
    (categories : list Category.t) (PE : Bill.t) (userId otherCircle : Z) :
  Bill.circleId PE <> otherCircle ->
  filter (fun '(PE, CM, EC) =>
            Member.userId CM = userId /\ Member.circleId CM = otherCircle)
    (CM ← filter (fun CM => Bill.circleId PE = Member.circleId CM) members;
     EC ← filter (fun EC => Bill.billCategoryId PE = Category.id EC) categories;
     [(PE, CM, EC)])
  = [].
Proof.
  intros Hc. apply filter_none, Forall_forall.
  intros [[PE' CM] EC] H [Hu Hm].
  apply list_elem_of_bind in H as (CM' & H & HCM).
  apply list_elem_of_bind in H as (EC' & H & HEC).
  apply list_elem_of_singleton in H. inversion H; subst.
  apply list_elem_of_filter in HCM as [Hj _]. congruence.
Qed.

Lemma budget_join_other_circle (members : list Member.t)
    (PEB : Budget.t) (userId otherCircle : Z) :
  Budget.circleId PEB <> otherCircle ->
  filter (fun '(PEB, CM) =>
            Member.userId CM = userId /\ Member.circleId CM = otherCircle)
    (CM ← filter (fun CM => Budget.circleId PEB = Member.circleId CM) members;
     [(PEB, CM)])
  = [].
Proof.
  intros Hc. apply filter_none, Forall_forall.
  intros [PEB' CM] H [Hu Hm].
  apply list_elem_of_bind in H as (CM' & H & HCM).
  apply list_elem_of_singleton in H. inversion H; subst.
  apply list_elem_of_filter in HCM as [Hj _]. congruence.
Qed.

(** X13: removing from one circle leaves the lists of every other circle
    as they were, for every user: [getBills] after [removeBill] and
    [getBudgets] after [removeBudget] resolve with the same rows in the
    same order as before.  Removing a bill changes no list of budgets, of
    whatever circle, and removing a budget no list of bills. *)
Theorem remove_leaves_other_circles
    (db : Db.Store) (caller id circleId userId otherCircle anyCircle : Z) :
  otherCircle <> circleId ->
  (Expenses.getBills userId otherCircle
     (Expenses.removeBill caller id circleId db).2).1
  = (Expenses.getBills userId otherCircle db).1
  /\ (Expenses.getBudgets userId otherCircle
        (Expenses.removeBudget caller id circleId db).2).1
     = (Expenses.getBudgets userId otherCircle db).1
  /\ (Expenses.getBudgets userId anyCircle
        (Expenses.removeBill caller id circleId db).2).1
     = (Expenses.getBudgets userId anyCircle db).1
  /\ (Expenses.getBills userId anyCircle
        (Expenses.removeBudget caller id circleId db).2).1
     = (Expenses.getBills userId anyCircle db).1.
Proof.
  intros Hc. rewrite !getBills_run, !getBudgets_run, removeBill_run,
    removeBudget_run. cbn [fst snd].
  split; [|split; [|split; reflexivity]].
  - do 2 f_equal. unfold Db.select_bills. do 2 f_equal.
    unfold Db.bills_joined, Db.delete_bill. cbn.
    apply filter_bind_drop. intros PE _ Hhit.
    apply bill_join_other_circle.
    destruct (decide (Bill.circleId PE = otherCircle)) as [He|]; [|done].
    exfalso. apply Hhit. intros [_ Hcirc]. congruence.
  - do 2 f_equal. unfold Db.select_budgets. do 2 f_equal.
    unfold Db.budgets_joined, Db.delete_budget. cbn.
    apply filter_bind_drop. intros PEB _ Hhit.
    apply budget_join_other_circle.
    destruct (decide (Budget.circleId PEB = otherCircle)) as [He|]; [|done].
    exfalso. apply Hhit. intros [_ Hcirc]. congruence.
Qed.

Lemma remove_leaves_other_circles_witness :
  2 <> 1
  /\ (Expenses.getBills 10 2 (Expenses.removeBill 10 1 1 db0).2).1
     = (Expenses.getBills 10 2 db0).1.
Proof.
  assert (H : 2 <> 1) by lia.
  split; [exact H|].
  exact (proj1 (remove_leaves_other_circles db0 10 1 1 10 2 2 H)).
Defined.

(** X14: adding to one circle leaves the lists of every other circle as
    they were, for every user: [getBills] after [addBill] and
    [getBudgets] after [addBudget] resolve with the same rows in the same
    order as before, whether the store takes the row or refuses it.
    Adding a bill changes no list of budgets, of whatever circle, and
    adding a budget no list of bills. *)
Theorem add_leaves_other_circles
    (db : Db.Store) (circleId recorder userId otherCircle anyCircle : Z)
    (name : string) (amount categoryId date1 date2 : Z) :
  otherCircle <> circleId ->
  (Expenses.getBills userId otherCircle
     (Expenses.addBill circleId recorder name amount categoryId date1 db).2).1
  = (Expenses.getBills userId otherCircle db).1
  /\ (Expenses.getBudgets userId otherCircle
        (Expenses.addBudget circleId recorder name amount date1 date2 db).2).1
     = (Expenses.getBudgets userId otherCircle db).1
  /\ (Expenses.getBudgets userId anyCircle
        (Expenses.addBill circleId recorder name amount categoryId date1 db).2).1
     = (Expenses.getBudgets userId anyCircle db).1
  /\ (Expenses.getBills userId anyCircle
        (Expenses.addBudget circleId recorder name amount date1 date2 db).2).1
     = (Expenses.getBills userId anyCircle db).1.
Proof.
  intros Hc.
  destruct (decide (is_category db categoryId)) as [Hk|Hk];
    [rewrite !addBill_accepted by done|rewrite !addBill_refused by done];
    rewrite !getBills_run, !getBudgets_run, addBudget_run; cbn [fst snd];
    (split; [|split; [|split; reflexivity]]); try reflexivity.
  - do 2 f_equal. unfold Db.select_bills. do 2 f_equal.
    unfold Db.bills_joined, Db.store_bill. cbn.
    apply filter_bind_snoc, bill_join_other_circle. cbn. congruence.
  - do 2 f_equal. unfold Db.select_budgets. do 2 f_equal.
    unfold Db.budgets_joined, Db.insert_budget. cbn.
    apply filter_bind_snoc, budget_join_other_circle. cbn. congruence.
  - do 2 f_equal. unfold Db.select_budgets. do 2 f_equal.
    unfold Db.budgets_joined, Db.insert_budget. cbn.
    apply filter_bind_snoc, budget_join_other_circle. cbn. congruence.
Qed.

Lemma add_leaves_other_circles_witness :
  2 <> 1
  /\ (Expenses.getBills 10 2 (Expenses.addBill 1 10 "gift" 20 1 500 db0).2).1
     = (Expenses.getBills 10 2 db0).1.
Proof.
  assert (H : 2 <> 1) by lia.
  split; [exact H|].
  exact (proj1 (add_leaves_other_circles db0 1 10 10 2 2 "gift" 20 1 500 600 H)).
Defined.

(* ===================================================================== *)
(** ** How many rows a list has *)
(* ===================================================================== *)

Lemma budget_join_length (members : list Member.t) (PEB : Budget.t)
    (userId circleId : Z) :
  length
    (filter (fun '(PEB, CM) =>
               Member.userId CM = userId /\ Member.circleId CM = circleId)
       (CM ← filter (fun CM => Budget.circleId PEB = Member.circleId CM) members;
        [(PEB, CM)]))
  = if decide (Budget.circleId PEB = circleId)
    then length (filter (fun CM => Member.userId CM = userId
                                   /\ Member.circleId CM = circleId) members)
    else O.
Proof.
  induction members as [|CM members IH].
  - by destruct (decide _).
  - destruct (decide (Budget.circleId PEB = Member.circleId CM)) as [Hj|Hj].
    + rewrite filter_cons_True by done.
      rewrite bind_cons, filter_app, length_app, IH. clear IH.
      destruct (decide (Budget.circleId PEB = circleId)) as [Hc|Hc].
      * destruct (decide (Member.userId CM = userId)) as [Hu|Hu].
        -- rewrite !filter_cons_True by (split; congruence). reflexivity.
        -- rewrite !filter_cons_False by tauto. reflexivity.
      * rewrite filter_cons_False; [done|]. intros [_ Hm]. congruence.
    + rewrite filter_cons_False by done. rewrite IH.
      destruct (decide (Budget.circleId PEB = circleId)) as [Hc|Hc]; [|done].
      rewrite filter_cons_False; [done|]. intros [_ Hm]. congruence.
Qed.

(** X15: [getBudgets] lists every budget of the circle once for each
    membership row the user has for the circle: the number of rows is the
    number of budgets of the circle times the number of those membership
    rows.  A membership recorded twice doubles the list. *)
Theorem getBudgets_row_count (db : Db.Store) (userId circleId : Z) :
  exists rows,
    Expenses.getBudgets userId circleId db = (Js.Resolved (Some rows), db)
    /\ length rows
       = (length (filter (fun PEB => Budget.circleId PEB = circleId)
                         (Db.tb_plugin_expenses_budget db))
          * length (filter (fun CM => Member.userId CM = userId
                                      /\ Member.circleId CM = circleId)
                           (Db.tb_circle_member db)))%nat.
Proof.
  eexists. split; [apply getBudgets_run|].
  unfold Db.select_budgets. rewrite length_fmap.
  rewrite (Permutation_length (order_by_desc_perm _ _)).
  unfold Db.budgets_joined.
  induction (Db.tb_plugin_expenses_budget db) as [|PEB budgets IH]; [done|].
  rewrite bind_cons, filter_app, length_app, IH, budget_join_length.
  destruct (decide (Budget.circleId PEB = circleId)) as [Hc|Hc].
  - rewrite filter_cons_True by done. cbn [length]. lia.
  - rewrite filter_cons_False by done. lia.
Qed.

(** User 10 recorded twice as a member of circle 1: each of its two
    budgets is listed twice. *)
Example getBudgets_double_membership :
  BudgetRow.id <$>
    default [] (match (Expenses.getBudgets 10 1
                         (with_members db0 (Member.mk 10 1 false None
                                              :: Db.tb_circle_member db0))).1 with
                | Js.Resolved rows => rows
                | Js.Rejected _ => None
                end)
  = [3; 3; 1; 1].
Proof. reflexivity. Qed.

(* ===================================================================== *)
(** ** Lists grow by adding and shrink by removing *)
(* ===================================================================== *)

Lemma bills_listed_select db userId circleId :
  bills_listed db userId circleId = Db.select_bills userId circleId db.
Proof. unfold bills_listed. by rewrite getBills_run. Qed.

Lemma budgets_listed_select db userId circleId :
  budgets_listed db userId circleId = Db.select_budgets userId circleId db.
Proof. unfold budgets_listed. by rewrite getBudgets_run. Qed.

(** X16: for every user and circle, a row that [getBills] lists is still
    listed after any [addBill], and a row that [getBills] lists after a
    [removeBill] was listed before it; likewise for budgets.  Adding hides
    nothing and removing reveals nothing. *)
Theorem lists_change_only_by_writes
    (db : Db.Store) (userId circleId : Z)
    (c u id : Z) (name : string) (amount categoryId date1 date2 : Z)
    (bill : BillRow.t) (budget : BudgetRow.t) :
  (bill ∈ bills_listed db userId circleId ->
   bill ∈ bills_listed
            (Expenses.addBill c u name amount categoryId date1 db).2
            userId circleId)
  /\ (bill ∈ bills_listed (Expenses.removeBill u id c db).2 userId circleId ->
      bill ∈ bills_listed db userId circleId)
  /\ (budget ∈ budgets_listed db userId circleId ->
      budget ∈ budgets_listed
                 (Expenses.addBudget c u name amount date1 date2 db).2
                 userId circleId)
  /\ (budget ∈ budgets_listed (Expenses.removeBudget u id c db).2
                 userId circleId ->
      budget ∈ budgets_listed db userId circleId).
Proof.
  rewrite !bills_listed_select, !budgets_listed_select.
  split.
  { destruct (decide (is_category db categoryId)) as [Hk|Hk];
      [rewrite addBill_accepted by done|by rewrite addBill_refused by done].
    cbn [snd]. rewrite !elem_of_select_bills.
    intros (PE & CM & EC & H & Hrest). exists PE, CM, EC. split; [|done].
    apply elem_of_bills_joined in H as (HPE & H).
    apply elem_of_bills_joined. cbn. split; [|done].
    apply elem_of_app. by left. }
  rewrite removeBill_run, addBudget_run, removeBudget_run.
  cbn [snd]. rewrite !elem_of_select_bills, !elem_of_select_budgets.
  split; [|split].
  - intros (PE & CM & EC & H & Hrest). exists PE, CM, EC. split; [|done].
    apply elem_of_bills_joined in H as (HPE & H). cbn in HPE, H.
    apply elem_of_bills_joined. split; [|done].
    by apply list_elem_of_filter in HPE as [_ ?].
  - intros (PEB & CM & H & Hrest). exists PEB, CM. split; [|done].
    apply elem_of_budgets_joined in H as (HPEB & H).
    apply elem_of_budgets_joined. cbn. split; [|done].
    apply elem_of_app. by left.
  - intros (PEB & CM & H & Hrest). exists PEB, CM. split; [|done].
    apply elem_of_budgets_joined in H as (HPEB & H). cbn in HPEB, H.
    apply elem_of_budgets_joined. split; [|done].
    by apply list_elem_of_filter in HPEB as [_ ?].
Qed.

(** The bill "flat" of the sample store stays listed when a bill is added
    to its circle. *)
Lemma lists_change_only_by_writes_witness :
  BillRow.mk 2 "flat" 900 2 "rent" 300 ∈ bills_listed db0 11 1
  /\ BillRow.mk 2 "flat" 900 2 "rent" 300
     ∈ bills_listed (Expenses.addBill 1 10 "gift" 20 1 500 db0).2 11 1.
Proof.
  assert (H : BillRow.mk 2 "flat" 900 2 "rent" 300 ∈ bills_listed db0 11 1).
  { apply list_elem_of_further, list_elem_of_here. }
  split; [exact H|].
  exact (proj1 (lists_change_only_by_writes db0 11 1 1 10 0 "gift" 20 1 500 600
                  (BillRow.mk 2 "flat" 900 2 "rent" 300)
                  (BudgetRow.mk 0 "none" 0 0 0)) H).
Defined.
